(** * Telemetry ingestion: the SQS batch handler and the stack that deploys it

    A shallow embedding of the two source files of the repository:

    - the Lambda module ([sqsHandler], the queue-driven batch processor), and
    - [lib/telemetry-microservice-stack.ts] (the CDK stack: table, queues,
      function and event source).

    Values are JavaScript values as [JSON.parse] builds them, objects are
    finite maps from property names to values, and the handler is written in
    a small state-and-exception monad over the things it touches: the
    console, the requests sent through [docClient] and the items the sink
    accepted. *)

From Stdlib Require Import PrimFloat Uint63 Ascii.
From stdpp Require Import gmap strings list fin_maps pretty.

#[local] Set Warnings "-register-all".

(** ** JavaScript values *)

(** A number is an IEEE binary64, a string has one character per code unit,
    an object is the finite map of its own enumerable properties. *)
Inductive value : Type :=
| VUndefined
| VNull
| VBoolean (b : bool)
| VNumber (x : float)
| VString (s : string)
| VArray (elems : list value)
| VObject (props : gmap string value).

(** [ToBoolean]: what [!v] negates. *)
Definition truthy (v : value) : bool :=
  match v with
  | VUndefined | VNull => false
  | VBoolean b => b
  | VNumber x => negb (PrimFloat.is_zero x || PrimFloat.is_nan x)
  | VString s => negb (String.eqb s EmptyString)
  | VArray _ | VObject _ => true
  end.

Definition is_object (v : value) : bool :=
  match v with VObject _ => true | _ => false end.

(** Own enumerable properties under index keys [0], [1], ... *)
Definition indexed {A} (f : A → value) (l : list A) : gmap string value :=
  list_to_map (imap (λ i x, (pretty i, f x)) l).

(** The own enumerable string-keyed properties of a value: what the spread
    [...v] inside an object literal copies.  A string spreads its code units,
    an array its elements; numbers, booleans, [null] and [undefined] spread
    nothing. *)
Definition own_props (v : value) : gmap string value :=
  match v with
  | VObject props => props
  | VArray elems => indexed id elems
  | VString s => indexed (λ c, VString (String c EmptyString)) (String.list_ascii_of_string s)
  | _ => ∅
  end.

(** What a function can throw. *)
Inductive thrown : Type :=
| SyntaxError
| TypeError
| ServiceException (name : string).

Inductive Completion (A : Type) : Type :=
| Normal (a : A)
| Throw (e : thrown).
Arguments Normal {A} a.
Arguments Throw {A} e.

(** The own property [k] of [v], [undefined] when there is none. *)
Definition field (v : value) (k : string) : value :=
  default VUndefined (own_props v !! k).

(** [v.k] for a property [k] that no prototype defines (the handler reads
    [siteId] and [body] only): a [TypeError] on [null] and [undefined], the
    own property or [undefined] otherwise. *)
Definition member (v : value) (k : string) : Completion value :=
  match v with
  | VUndefined | VNull => Throw TypeError
  | _ => Normal (field v k)
  end.

(** ** What the handler talks to *)

Record SQSRecord : Type := { messageId : string; body : string }.
Record SQSEvent : Type := { Records : list SQSRecord }.

(** The input of a [PutCommand].  The handler fills in [TableName] and
    [Item]; [ConditionExpression] is the field a conditional write would
    use. *)
Record PutCommandInput : Type := {
  TableName : option string;
  Item : gmap string value;
  ConditionExpression : option string
}.

(** One line on the console, by the call that wrote it. *)
Inductive Line : Type :=
| log_Received_event (event : SQSEvent)
| error_Missing_required_fields
| info_Successfully_stored (siteId : value)
| error_Error_storing (siteId : value) (error : thrown).

(** The runtime the handler runs in.  Positions count the records of the
    delivered batch from 0:
    - [JSON_parse] is the runtime's decoder;
    - [process_env] is [process.env];
    - [toISOString_now i] is the value of [new Date().toISOString()] while
      record [i] is processed;
    - [send i params] is the fate of the request [docClient.send] makes for
      record [i]: [None] when the sink accepts it, the exception otherwise. *)
Record Host : Type := {
  JSON_parse : string → Completion value;
  process_env : gmap string string;
  toISOString_now : nat → string;
  send : nat → PutCommandInput → option thrown
}.

(** What an invocation leaves behind. *)
Record World : Type := {
  console : list Line;
  requests : list PutCommandInput;
  stored : list PutCommandInput
}.

Definition start : World := {| console := []; requests := []; stored := [] |}.

(** ** The monad of the handler: state and exceptions *)

Definition M (A : Type) : Type := World → Completion A * World.

Definition ret {A} (a : A) : M A := λ w, (Normal a, w).

Definition bind {A B} (m : M A) (k : A → M B) : M B :=
  λ w, match m w with
       | (Normal a, w') => k a w'
       | (Throw e, w') => (Throw e, w')
       end.

Definition lift {A} (c : Completion A) : M A := λ w, (c, w).

Definition try_catch {A} (m : M A) (handler : thrown → M A) : M A :=
  λ w, match m w with
       | (Normal a, w') => (Normal a, w')
       | (Throw e, w') => handler e w'
       end.

#[global] Instance M_ret : MRet M := @ret.
#[global] Instance M_bind : MBind M := λ A B k m, bind m k.

Definition print (l : Line) : M unit :=
  λ w, (Normal tt, {| console := console w ++ [l];
                      requests := requests w;
                      stored := stored w |}).

(** [await docClient.send(new PutCommand(params))] for record [i]: the
    request goes out; the sink keeps the item or the call throws. *)
Definition docClient_send (h : Host) (i : nat) (params : PutCommandInput) : M unit :=
  λ w, match send h i params with
       | None => (Normal tt, {| console := console w;
                                requests := requests w ++ [params];
                                stored := stored w ++ [params] |})
       | Some e => (Throw e, {| console := console w;
                                requests := requests w ++ [params];
                                stored := stored w |})
       end.

(** [for (const x of xs) body], with the position of [x] passed along. *)
Fixpoint for_of {A} (i : nat) (xs : list A) (loop_body : nat → A → M unit) : M unit :=
  match xs with
  | [] => ret tt
  | x :: rest => loop_body i x;; for_of (S i) rest loop_body
  end.

(** ** The handler *)

(** The object literal [{ siteId: siteId, ...body, timestamp: now }]: later
    properties replace earlier ones of the same name. *)
Definition build_Item (siteId body : value) (now : string) : gmap string value :=
  <["timestamp" := VString now]> (own_props body ∪ {["siteId" := siteId]}).

Definition build_params (h : Host) (i : nat) (siteId body : value) : PutCommandInput :=
  {| TableName := process_env h !! "TABLE_NAME";
     Item := build_Item siteId body (toISOString_now h i);
     ConditionExpression := None |}.

(** The body of the loop of [sqsHandler]; [continue] ends it early. *)
Definition process_record (h : Host) (i : nat) (record : SQSRecord) : M unit :=
  message ← lift (JSON_parse h (body record));
  siteId ← lift (member message "siteId");
  body ← lift (member message "body");
  if negb (truthy siteId) || negb (truthy body) then
    print error_Missing_required_fields
  else
    let params := build_params h i siteId body in
    try_catch
      (docClient_send h i params;;
       print (info_Successfully_stored siteId))
      (λ error, print (error_Error_storing siteId error)).

Definition sqsHandler (h : Host) (event : SQSEvent) : M unit :=
  print (log_Received_event event);;
  for_of 0 (Records event) (process_record h).

(** ** Outcomes *)

(** The handler returns nothing; which way a record went shows in the one
    line it leaves on the console: the [continue] branch, the end of the
    [try] block, or the [catch] block. *)
Inductive Outcome : Type := Success | SkippedInvalid | StorageFailure.

Definition outcome_of_line (l : Line) : option Outcome :=
  match l with
  | log_Received_event _ => None
  | error_Missing_required_fields => Some SkippedInvalid
  | info_Successfully_stored _ => Some Success
  | error_Error_storing _ _ => Some StorageFailure
  end.

Definition outcomes (w : World) : list Outcome := omap outcome_of_line (console w).

(** ** The stack *)

Module Stack.

Inductive AttributeType : Type := BINARY | NUMBER | STRING.
Record Attribute : Type := { name : string; type : AttributeType }.
Inductive BillingMode : Type := PAY_PER_REQUEST | PROVISIONED.

Record Table : Type := {
  table_id : string;
  partitionKey : Attribute;
  sortKey : option Attribute;
  billingMode : option BillingMode
}.

Record Duration : Type := { toSeconds : nat }.
Definition seconds (n : nat) : Duration := {| toSeconds := n |}.

Inductive Queue : Type := new_Queue {
  queue_id : string;
  queueName : option string;
  visibilityTimeout : option Duration;
  deadLetterQueue : option DeadLetterQueue
}
with DeadLetterQueue : Type := new_DeadLetterQueue {
  maxReceiveCount : nat;
  queue : Queue
}.

Inductive Runtime : Type := NODEJS_18_X | NODEJS_20_X.

(** A value of the function's environment: a literal, or the name of a
    table that is only known at deployment. *)
Inductive EnvValue : Type :=
| literal (s : string)
| tableName (t : Table).

Record Function : Type := {
  function_id : string;
  runtime : Runtime;
  code : string;
  handler : string;
  environment : list (string * EnvValue)
}.

Record SqsEventSource : Type := {
  source : Queue;
  batchSize : option nat;
  reportBatchItemFailures : option bool
}.

(** The constructs the constructor of [TelemetryMicroserviceStack] creates
    for the ingestion path, in its order.  (The REST API in front of the
    queue and the stack outputs follow in the source.) *)

Definition telemetryTable : Table :=
  {| table_id := "TelemetriesStore";
     partitionKey := {| name := "deviceId"; type := STRING |};
     sortKey := Some {| name := "creationTimeISO"; type := STRING |};
     billingMode := Some PAY_PER_REQUEST |}.

Definition dlq : Queue :=
  {| queue_id := "TelemetryDLQ";
     queueName := Some "TelemetryDLQ";
     visibilityTimeout := None;
     deadLetterQueue := None |}.

Definition telemetryQueue : Queue :=
  {| queue_id := "TelemetryQueue";
     queueName := Some "TelemetryQueue";
     visibilityTimeout := Some (seconds 60);
     deadLetterQueue := Some {| maxReceiveCount := 3; queue := dlq |} |}.

Definition telemetryProcessorFunction : Function :=
  {| function_id := "TelemetryProcessorFunction";
     runtime := NODEJS_20_X;
     code := "dist/lambda";
     handler := "write-telemetries.handler";
     environment := [("TABLE_NAME", tableName telemetryTable)] |}.

(** [telemetryProcessorFunction.addEventSource(new SqsEventSource(...))] *)
Definition eventSource : SqsEventSource :=
  {| source := telemetryQueue;
     batchSize := Some 10;
     reportBatchItemFailures := None |}.

(** The attributes of the primary key of a table. *)
Definition keySchema (t : Table) : list Attribute :=
  partitionKey t :: option_list (sortKey t).

End Stack.

(** ** The services around the handler

    DynamoDB, SQS and the Lambda event source mapping are services of the
    platform, not code of the repository.  What follows states, as functions
    of the properties the stack sets, the parts of their contracts that the
    properties below talk about. *)

Module Service.
Import Stack.

Definition has_type (ty : AttributeType) (v : value) : bool :=
  match ty, v with
  | STRING, VString _ => true
  | NUMBER, VNumber _ => true
  | _, _ => false
  end.

(** [PutItem] needs every attribute of the key schema in the item, with
    the declared type. *)
Definition carries_key (t : Table) (item : gmap string value) : bool :=
  forallb (λ a, from_option (has_type (type a)) false (item !! name a))
          (keySchema t).

(** One invocation receives at most [batchSize] of the visible messages
    (10 when the property is not set). *)
Definition batch_of {A} (es : SqsEventSource) (visible : list A) : list A :=
  take (default 10 (batchSize es)) visible.


(** A receive of a message that was received [n] times before: with a
    dead-letter queue, the message moves there once its receive count
    would pass [maxReceiveCount]. *)
Inductive Receipt : Type :=
| Delivered (receiveCount : nat)
| DeadLettered (to : Queue).

Definition receive (q : Queue) (n : nat) : Receipt :=
  match deadLetterQueue q with
  | Some d => if maxReceiveCount d <? S n then DeadLettered (queue d)
              else Delivered (S n)
  | None => Delivered (S n)
  end.

End Service.

(** ** A decoder for the examples

    JSON texts as the gateway template produces them; the number literals
    read here are integers below 2^53, which a binary64 holds exactly. *)

Module Decoder.

Definition dquote : ascii := "034"%char.

(** Texts are written with ['] for the double quote. *)
Definition quoted (s : string) : string :=
  String.string_of_list_ascii
    ((λ c, if Ascii.eqb c "'" then dquote else c) <$> String.list_ascii_of_string s).

Definition is_ws (c : ascii) : bool :=
  Ascii.eqb c " " || Ascii.eqb c "009" || Ascii.eqb c "010" || Ascii.eqb c "013".

Fixpoint skip_ws (s : list ascii) : list ascii :=
  match s with
  | c :: rest => if is_ws c then skip_ws rest else s
  | [] => []
  end.

Definition digit (c : ascii) : option N :=
  let n := N_of_ascii c in
  if (48 <=? n)%N && (n <=? 57)%N then Some (n - 48)%N else None.

Fixpoint read_digits (acc : N) (s : list ascii) : N * list ascii :=
  match s with
  | c :: rest =>
      match digit c with
      | Some d => read_digits (10 * acc + d)%N rest
      | None => (acc, s)
      end
  | [] => (acc, [])
  end.

Definition unescape (c : ascii) : option ascii :=
  if Ascii.eqb c dquote then Some dquote
  else if Ascii.eqb c "\" then Some "\"%char
  else if Ascii.eqb c "/" then Some "/"%char
  else if Ascii.eqb c "b" then Some "008"%char
  else if Ascii.eqb c "f" then Some "012"%char
  else if Ascii.eqb c "n" then Some "010"%char
  else if Ascii.eqb c "r" then Some "013"%char
  else if Ascii.eqb c "t" then Some "009"%char
  else None.

(** The rest of a string literal, after its opening quote. *)
Fixpoint read_string (s : list ascii) : option (string * list ascii) :=
  match s with
  | [] => None
  | c :: rest =>
      if Ascii.eqb c dquote then Some (EmptyString, rest)
      else if Ascii.eqb c "\" then
        match rest with
        | e :: rest' =>
            c' ← unescape e;
            '(str, tl) ← read_string rest';
            Some (String c' str, tl)
        | [] => None
        end
      else if (N_of_ascii c <? 32)%N then None
      else '(str, tl) ← read_string rest; Some (String c str, tl)
  end.

(** An integer literal: no leading zero, no fraction, no exponent. *)
Definition read_number (negative : bool) (s : list ascii) : option (value * list ascii) :=
  match s with
  | c :: rest =>
      d ← digit c;
      let '(n, tl) := if (d =? 0)%N then (0%N, rest) else read_digits d rest in
      let more := match tl with
                  | c' :: _ => bool_decide (is_Some (digit c'))
                               || Ascii.eqb c' "." || Ascii.eqb c' "e" || Ascii.eqb c' "E"
                  | [] => false
                  end in
      if more || negb (n <? 2 ^ 53)%N then None
      else
        let x := PrimFloat.of_uint63 (Uint63.of_Z (Z.of_N n)) in
        Some (VNumber (if negative then PrimFloat.opp x else x), tl)
  | [] => None
  end.

Fixpoint strip (prefix : list ascii) (s : list ascii) : option (list ascii) :=
  match prefix, s with
  | [], _ => Some s
  | p :: prefix', c :: rest => if Ascii.eqb p c then strip prefix' rest else None
  | _ :: _, [] => None
  end.

Definition literal (word : string) (v : value) (s : list ascii) : option (value * list ascii) :=
  tl ← strip (String.list_ascii_of_string word) s; Some (v, tl).

(** Later members replace earlier ones of the same name. *)
Definition object_of (members : list (string * value)) : value :=
  VObject (foldl (λ m kv, <[kv.1 := kv.2]> m) ∅ members).

Fixpoint read_value (fuel : nat) (s : list ascii) : option (value * list ascii) :=
  match fuel with
  | 0 => None
  | S fuel =>
      match skip_ws s with
      | [] => None
      | c :: rest =>
          if Ascii.eqb c dquote then
            '(str, tl) ← read_string rest; Some (VString str, tl)
          else if Ascii.eqb c "[" then
            match skip_ws rest with
            | c' :: tl =>
                if Ascii.eqb c' "]" then Some (VArray [], tl)
                else '(vs, tl') ← read_elements fuel rest; Some (VArray vs, tl')
            | [] => None
            end
          else if Ascii.eqb c "{" then
            match skip_ws rest with
            | c' :: tl =>
                if Ascii.eqb c' "}" then Some (object_of [], tl)
                else '(kvs, tl') ← read_members fuel rest; Some (object_of kvs, tl')
            | [] => None
            end
          else if Ascii.eqb c "-" then read_number true rest
          else if Ascii.eqb c "n" then literal "null" VNull (c :: rest)
          else if Ascii.eqb c "t" then literal "true" (VBoolean true) (c :: rest)
          else if Ascii.eqb c "f" then literal "false" (VBoolean false) (c :: rest)
          else read_number false (c :: rest)
      end
  end
with read_elements (fuel : nat) (s : list ascii) : option (list value * list ascii) :=
  match fuel with
  | 0 => None
  | S fuel =>
      '(v, tl) ← read_value fuel s;
      match skip_ws tl with
      | c :: tl' =>
          if Ascii.eqb c "," then
            '(vs, tl'') ← read_elements fuel tl'; Some (v :: vs, tl'')
          else if Ascii.eqb c "]" then Some ([v], tl')
          else None
      | [] => None
      end
  end
with read_members (fuel : nat) (s : list ascii) : option (list (string * value) * list ascii) :=
  match fuel with
  | 0 => None
  | S fuel =>
      match skip_ws s with
      | c :: rest =>
          if Ascii.eqb c dquote then
            '(k, tl) ← read_string rest;
            match skip_ws tl with
            | c' :: tl' =>
                if Ascii.eqb c' ":" then
                  '(v, tl'') ← read_value fuel tl';
                  match skip_ws tl'' with
                  | c'' :: tl3 =>
                      if Ascii.eqb c'' "," then
                        '(kvs, tl4) ← read_members fuel tl3; Some ((k, v) :: kvs, tl4)
                      else if Ascii.eqb c'' "}" then Some ([(k, v)], tl3)
                      else None
                  | [] => None
                  end
                else None
            | [] => None
            end
          else None
      | [] => None
      end
  end.

Definition parse (text : string) : Completion value :=
  let s := String.list_ascii_of_string text in
  match read_value (S (length s)) s with
  | Some (v, tl) => match skip_ws tl with
                    | [] => Normal v
                    | _ :: _ => Throw SyntaxError
                    end
  | None => Throw SyntaxError
  end.

End Decoder.

(** A host for the examples: the decoder above, the table name in the
    environment, a clock that shows the position of the record in its last
    digits, and the given sink. *)
Definition example_host (sink : nat → PutCommandInput → option thrown) : Host :=
  {| JSON_parse := Decoder.parse;
     process_env := {["TABLE_NAME" := "TelemetriesStore"]};
     toISOString_now := λ i, "2024-05-01T12:00:00.00" +:+ pretty i +:+ "Z";
     send := sink |}.

Definition accepting : nat → PutCommandInput → option thrown := λ _ _, None.

(** A sink that refuses the request made for record [k] and no other. *)
Definition rejecting_at (k : nat) : nat → PutCommandInput → option thrown :=
  λ i _, if decide (i = k)
         then Some (ServiceException "ProvisionedThroughputExceededException")
         else None.

Definition record_of (text : string) : SQSRecord :=
  {| messageId := "m"; body := Decoder.quoted text |}.

(** ** Runs and their comparison *)

(** The world after a run of the handler from an empty console. *)
Definition world_after (h : Host) (batch : list SQSRecord) : World :=
  (sqsHandler h {| Records := batch |} start).2.

(** Everything the handler does to the world is to add at the end. *)
Definition extend (w d : World) : World :=
  {| console := console w ++ console d;
     requests := requests w ++ requests d;
     stored := stored w ++ stored d |}.

(** A computation is framed when it only adds to the world, and what it adds
    does not depend on what was there. *)
Definition framed {A} (m : M A) : Prop :=
  ∀ w, m w = ((m start).1, extend w (m start).2).

(** The loop of the handler alone. *)
Definition run (h : Host) (batch : list SQSRecord) : M unit :=
  for_of 0 batch (process_record h).

(** What the loop adds to the world when it starts at position [i]. *)
Definition added (h : Host) (i : nat) (batch : list SQSRecord) : World :=
  (for_of i batch (process_record h) start).2.

(** What the first statement of the handler adds to the world. *)
Definition received (event : SQSEvent) : World :=
  {| console := [log_Received_event event]; requests := []; stored := [] |}.

(** What one record adds to the world, by the branch it takes. *)
Definition skipped : World :=
  {| console := [error_Missing_required_fields]; requests := []; stored := [] |}.

Definition written (siteId : value) (params : PutCommandInput) : World :=
  {| console := [info_Successfully_stored siteId];
     requests := [params]; stored := [params] |}.

Definition refused (siteId : value) (params : PutCommandInput) (e : thrown) : World :=
  {| console := [error_Error_storing siteId e];
     requests := [params]; stored := [] |}.

(** The body of a record decodes to a value with members: anything but
    [null] ([JSON.parse] never returns [undefined]). *)
Definition decodes (h : Host) (record : SQSRecord) : Prop :=
  ∃ message, JSON_parse h (body record) = Normal message
             ∧ message ≠ VNull ∧ message ≠ VUndefined.


(** ** Counting and shifting *)



(** The host as the records from position [n] on see it. *)
Definition shift (n : nat) (h : Host) : Host :=
  {| JSON_parse := JSON_parse h;
     process_env := process_env h;
     toISOString_now := λ i, toISOString_now h (n + i);
     send := λ i params, send h (n + i) params |}.

(** What every request of the handler looks like: the table of the
    environment, no condition, a [siteId] attribute, and as [timestamp] the
    clock reading of one of the positions below [n]. *)
Definition well_formed_request (h : Host) (n : nat) (params : PutCommandInput) : Prop :=
  TableName params = process_env h !! "TABLE_NAME"
  ∧ ConditionExpression params = None
  ∧ is_Some (Item params !! "siteId")
  ∧ ∃ i, i < n ∧ Item params !! "timestamp" = Some (VString (toISOString_now h i)).

(** ** [JSON.stringify] on an object of strings

    The text [JSON.stringify] gives for an object whose properties are all
    strings, listed in property order, with no indentation. *)

Module Encoder.

Definition hex (n : N) : ascii :=
  match n with
  | 0 => "0" | 1 => "1" | 2 => "2" | 3 => "3" | 4 => "4" | 5 => "5"
  | 6 => "6" | 7 => "7" | 8 => "8" | 9 => "9" | 10 => "a" | 11 => "b"
  | 12 => "c" | 13 => "d" | 14 => "e" | _ => "f"
  end%char%N.

(** One character inside a string literal: the quote and the backslash are
    escaped, the control characters have their short escape or [\u00xx]. *)
Definition escape (c : ascii) : list ascii :=
  if Ascii.eqb c Decoder.dquote then ["\"; Decoder.dquote]%char
  else if Ascii.eqb c "\" then ["\"; "\"]%char
  else if Ascii.eqb c "008" then ["\"; "b"]%char
  else if Ascii.eqb c "012" then ["\"; "f"]%char
  else if Ascii.eqb c "010" then ["\"; "n"]%char
  else if Ascii.eqb c "013" then ["\"; "r"]%char
  else if Ascii.eqb c "009" then ["\"; "t"]%char
  else if (N_of_ascii c <? 32)%N then
    ["\"; "u"; "0"; "0"; hex (N_of_ascii c / 16); hex (N_of_ascii c mod 16)]%char
  else [c].

Definition escaped (s : string) : list ascii :=
  concat (escape <$> String.list_ascii_of_string s).

Definition quote (s : string) : list ascii :=
  Decoder.dquote :: escaped s ++ [Decoder.dquote].

Fixpoint members (fields : list (string * string)) : list ascii :=
  match fields with
  | [] => []
  | [(k, v)] => quote k ++ ":"%char :: quote v
  | (k, v) :: rest => quote k ++ ":"%char :: quote v ++ ","%char :: members rest
  end.

Definition stringify (fields : list (string * string)) : string :=
  String.string_of_list_ascii ("{"%char :: members fields ++ ["}"%char]).

(** The strings whose literal uses no [\u00xx] escape. *)
Definition plain (s : string) : bool :=
  forallb (λ c, negb (N_of_ascii c <? 32)%N
                || Ascii.eqb c "008" || Ascii.eqb c "009" || Ascii.eqb c "010"
                || Ascii.eqb c "012" || Ascii.eqb c "013")
          (String.list_ascii_of_string s).

End Encoder.

(** ** The API Gateway handler *)

Record Context : Type := { awsRequestId : string }.

Module APIGatewayProxyEvent.
Record t : Type := {
  httpMethod : string;
  path : string;
  pathParameters : gmap string string;
  body : option string
}.
End APIGatewayProxyEvent.

Module APIGatewayProxyResult.
Record t : Type := { statusCode : nat; body : string }.
End APIGatewayProxyResult.

(** [apiGatewayHandler]; [now] is the value of [new Date().toISOString()]
    when the response is built. *)
Definition apiGatewayHandler (now : string) (event : APIGatewayProxyEvent.t)
    (context : Context) : APIGatewayProxyResult.t :=
  {| APIGatewayProxyResult.statusCode := 200;
     APIGatewayProxyResult.body :=
       Encoder.stringify
         [("message", "Telemetry data processed successfully");
          ("requestId", awsRequestId context);
          ("timestamp", now)] |}.

(** ** The REST API of the stack *)

Module Gateway.
Import Stack.

Inductive Principal : Type := ServicePrincipal (service : string).

(** [queue.queueArn] *)
Inductive Arn : Type := queueArn (q : Queue).

Record PolicyStatement : Type := {
  actions : list string;
  resources : list Arn
}.

Record PolicyDocument : Type := { statements : list PolicyStatement }.

Record Role : Type := {
  role_id : string;
  assumedBy : Principal;
  inlinePolicies : list (string * PolicyDocument)
}.

(** The target of the integration: the account of the stack and the name
    of a queue. *)
Inductive IntegrationPath : Type := account_queue (name : option string).

(** An [AwsIntegration], without its mapping templates. *)
Record AwsIntegration : Type := {
  service : string;
  path : IntegrationPath;
  integrationHttpMethod : string;
  credentialsRole : Role
}.

Inductive Resource : Type := new_Resource {
  pathPart : string;
  methods : list (string * AwsIntegration);
  children : list Resource
}.

Definition ApiGatewaySqsRole : Role :=
  {| role_id := "ApiGatewaySqsRole";
     assumedBy := ServicePrincipal "apigateway.amazonaws.com";
     inlinePolicies :=
       [("AllowSQSSendMessage",
         {| statements := [{| actions := ["sqs:SendMessage"];
                              resources := [queueArn telemetryQueue] |}] |})] |}.

Definition integration : AwsIntegration :=
  {| service := "sqs";
     path := account_queue (queueName telemetryQueue);
     integrationHttpMethod := "POST";
     credentialsRole := ApiGatewaySqsRole |}.

(** [write.addResource('{siteId}')] with [addMethod('POST', integration)] *)
Definition siteId : Resource :=
  {| pathPart := "{siteId}"; methods := [("POST", integration)]; children := [] |}.

(** [api.root.addResource('write')] *)
Definition write : Resource :=
  {| pathPart := "write"; methods := []; children := [siteId] |}.

(** [api.root] *)
Definition root : Resource :=
  {| pathPart := ""; methods := []; children := [write] |}.

(** The policies of a role allow an action on a resource when one of their
    statements lists both (the statements of the stack use no wildcard). *)
Definition allows (r : Role) (action : string) (resource : Arn) : Prop :=
  ∃ name doc st, (name, doc) ∈ inlinePolicies r
                 ∧ st ∈ statements doc
                 ∧ action ∈ actions st
                 ∧ resource ∈ resources st.

(** The name of the parameter a path part like [{siteId}] stands for. *)
Definition param_name (part : string) : option string :=
  match String.list_ascii_of_string part with
  | c :: rest =>
      if Ascii.eqb c "{" then
        match reverse rest with
        | c' :: name =>
            if Ascii.eqb c' "}" then Some (String.string_of_list_ascii (reverse name))
            else None
        | [] => None
        end
      else None
  | [] => None
  end.

(** A segment of the request path against a path part: a parameter takes
    any segment and binds it, a fixed part takes itself. *)
Definition match_part (part segment : string) : option (list (string * string)) :=
  match param_name part with
  | Some name => Some [(name, segment)]
  | None => if String.eqb part segment then Some [] else None
  end.

(** The resource a request path (its segments, in order) leads to, with
    the path parameters bound on the way. *)
Fixpoint resolve (segments : list string) (r : Resource)
    : option (Resource * list (string * string)) :=
  match segments with
  | [] => Some (r, [])
  | segment :: rest =>
      (fix first (candidates : list Resource) :=
         match candidates with
         | [] => None
         | child :: others =>
             match match_part (pathPart child) segment with
             | Some bound =>
                 match resolve rest child with
                 | Some (found, bindings) => Some (found, bound ++ bindings)
                 | None => first others
                 end
             | None => first others
             end
         end) (children r)
  end.

(** The integration that serves a request, and its path parameters. *)
Definition route (method : string) (segments : list string)
    : option (AwsIntegration * list (string * string)) :=
  match resolve segments root with
  | Some (found, bindings) =>
      match list_find (λ m, m.1 = method) (methods found) with
      | Some (_, (_, target)) => Some (target, bindings)
      | None => None
      end
  | None => None
  end.

End Gateway.

(** ** The log lines of the write step as strings

    The two log lines of the write step put [siteId] into a template
    literal, which converts it to a string.  [String(v)] throws a
    [TypeError] for an object with an own [toString] property (decoded JSON
    is never callable) and for an array with such an element; for every
    other decoded value it returns.  [sqsHandler] above keeps the value in
    the line and leaves the conversion out; [Templates.sqsHandler] is the
    handler with it. *)

Fixpoint converts (v : value) : bool :=
  match v with
  | VObject props => negb (bool_decide (is_Some (props !! "toString")))
  | VArray elems => forallb converts elems
  | _ => true
  end.

(** The record does not reach a log line that cannot be written. *)
Definition loggable (h : Host) (record : SQSRecord) : Prop :=
  ∀ message,
    JSON_parse h (body record) = Normal message →
    truthy (field message "siteId") && truthy (field message "body") = true →
    converts (field message "siteId") = true.

(** What a record adds to the world when its put is sent and its log line
    cannot be written. *)
Definition put_only (h : Host) (i : nat) (siteId payload : value) : World :=
  {| console := [];
     requests := [build_params h i siteId payload];
     stored := match send h i (build_params h i siteId payload) with
               | None => [build_params h i siteId payload]
               | Some _ => []
               end |}.

Module Templates.

(** [`${v}`] *)
Definition interpolate (v : value) : M unit :=
  if converts v then ret tt else lift (Throw TypeError).

Definition process_record (h : Host) (i : nat) (record : SQSRecord) : M unit :=
  message ← lift (JSON_parse h (body record));
  siteId ← lift (member message "siteId");
  body ← lift (member message "body");
  if negb (truthy siteId) || negb (truthy body) then
    print error_Missing_required_fields
  else
    let params := build_params h i siteId body in
    try_catch
      (docClient_send h i params;;
       interpolate siteId;;
       print (info_Successfully_stored siteId))
      (λ error,
         interpolate siteId;;
         print (error_Error_storing siteId error)).

Definition sqsHandler (h : Host) (event : SQSEvent) : M unit :=
  print (log_Received_event event);;
  for_of 0 (Records event) (process_record h).

Definition world_after (h : Host) (batch : list SQSRecord) : World :=
  (sqsHandler h {| Records := batch |} start).2.

End Templates.

(** ** The environment the stack gives the function *)


(** ** The decoder on the texts of the examples *)

Example parse_s1 :
  Decoder.parse (Decoder.quoted "{'siteId':'s1','body':{'temp':21}}")
  = Normal (VObject {[ "siteId" := VString "s1";
                       "body" := VObject {[ "temp" := VNumber 21 ]} ]}).
Proof. vm_compute. reflexivity. Qed.

Example parse_empty_fields :
  Decoder.parse (Decoder.quoted "{'siteId':'','body':{}}")
  = Normal (VObject {[ "siteId" := VString ""; "body" := VObject ∅ ]}).
Proof. vm_compute. reflexivity. Qed.

Example parse_no_body :
  Decoder.parse (Decoder.quoted "{'siteId':'s2'}")
  = Normal (VObject {[ "siteId" := VString "s2" ]}).
Proof. vm_compute. reflexivity. Qed.

Example parse_truncated :
  Decoder.parse (Decoder.quoted "{'siteId':'s1'") = Throw SyntaxError.
Proof. vm_compute. reflexivity. Qed.

Example parse_null : Decoder.parse "null" = Normal VNull.
Proof. vm_compute. reflexivity. Qed.

(** ** The monad and the loop *)

Lemma extend_start_r w : extend w start = w.
Proof. destruct w. unfold extend; simpl. by rewrite !app_nil_r. Qed.

Lemma extend_start_l w : extend start w = w.
Proof. by destruct w. Qed.

Lemma extend_assoc w d1 d2 : extend (extend w d1) d2 = extend w (extend d1 d2).
Proof. unfold extend; simpl. by rewrite !app_assoc. Qed.

Lemma framed_ret {A} (a : A) : framed (ret a).
Proof. intros w. unfold ret; simpl. by rewrite extend_start_r. Qed.

Lemma framed_lift {A} (c : Completion A) : framed (lift c).
Proof. intros w. unfold lift; simpl. by rewrite extend_start_r. Qed.

Lemma framed_print l : framed (print l).
Proof. intros w. unfold print, extend; simpl. by rewrite !app_nil_r. Qed.

Lemma framed_docClient_send h i params : framed (docClient_send h i params).
Proof.
  intros w. unfold docClient_send, extend.
  destruct (send h i params); simpl; by rewrite !app_nil_r.
Qed.

Lemma framed_bind {A B} (m : M A) (k : A → M B) :
  framed m → (∀ a, framed (k a)) → framed (m ≫= k).
Proof.
  intros Hm Hk w. unfold mbind, M_bind, bind.
  rewrite (Hm w). destruct (m start) as [[a|e] d]; simpl.
  - rewrite (Hk a (extend w d)), (Hk a d). simpl. by rewrite extend_assoc.
  - done.
Qed.

Lemma framed_try_catch {A} (m : M A) (handler : thrown → M A) :
  framed m → (∀ e, framed (handler e)) → framed (try_catch m handler).
Proof.
  intros Hm Hk w. unfold try_catch.
  rewrite (Hm w). destruct (m start) as [[a|e] d]; simpl.
  - done.
  - rewrite (Hk e (extend w d)), (Hk e d). simpl. by rewrite extend_assoc.
Qed.

Lemma framed_for_of {A} (loop_body : nat → A → M unit) xs :
  (∀ i x, framed (loop_body i x)) → ∀ i, framed (for_of i xs loop_body).
Proof.
  intros Hbody. induction xs as [|x xs IH]; intros i; simpl.
  - apply framed_ret.
  - apply framed_bind; [apply Hbody | intros _; apply IH].
Qed.

Lemma framed_process_record h i record : framed (process_record h i record).
Proof.
  unfold process_record.
  apply framed_bind; [apply framed_lift | intros message].
  apply framed_bind; [apply framed_lift | intros siteId].
  apply framed_bind; [apply framed_lift | intros body].
  destruct (negb (truthy siteId) || negb (truthy body)).
  - apply framed_print.
  - apply framed_try_catch.
    + apply framed_bind; [apply framed_docClient_send | intros _; apply framed_print].
    + intros e. apply framed_print.
Qed.

(** ** One record *)

Lemma member_Normal message k :
  message ≠ VNull → message ≠ VUndefined →
  member message k = Normal (field message k).
Proof. by destruct message. Qed.

Lemma member_inv message k v :
  member message k = Normal v →
  message ≠ VNull ∧ message ≠ VUndefined
  ∧ v = field message k.
Proof. destruct message; simpl; intros H; by simplify_eq. Qed.

Lemma process_record_undecodable h i record e w :
  JSON_parse h (body record) = Throw e →
  process_record h i record w = (Throw e, w).
Proof.
  intros Hparse. unfold process_record, mbind, M_bind, bind, lift.
  by rewrite Hparse.
Qed.

Lemma process_record_no_members h i record message e w :
  JSON_parse h (body record) = Normal message →
  member message "siteId" = Throw e →
  process_record h i record w = (Throw e, w).
Proof.
  intros Hparse Hmem. unfold process_record, mbind, M_bind, bind, lift.
  by rewrite Hparse, Hmem.
Qed.

Lemma process_record_skipped h i record message siteId payload w :
  JSON_parse h (body record) = Normal message →
  member message "siteId" = Normal siteId →
  member message "body" = Normal payload →
  truthy siteId && truthy payload = false →
  process_record h i record w = (Normal tt, extend w skipped).
Proof.
  intros Hparse Hs Hb Hfalsy. unfold process_record, mbind, M_bind, bind, lift.
  rewrite Hparse, Hs, Hb.
  replace (negb (truthy siteId) || negb (truthy payload)) with true
    by (by destruct (truthy siteId), (truthy payload)).
  apply (framed_print _ w).
Qed.

Lemma process_record_written h i record message siteId payload w :
  JSON_parse h (body record) = Normal message →
  member message "siteId" = Normal siteId →
  member message "body" = Normal payload →
  truthy siteId && truthy payload = true →
  send h i (build_params h i siteId payload) = None →
  process_record h i record w
  = (Normal tt, extend w (written siteId (build_params h i siteId payload))).
Proof.
  intros Hparse Hs Hb [Hts Htb]%andb_true_iff Hsend.
  unfold process_record, mbind, M_bind, bind, lift.
  rewrite Hparse, Hs, Hb, Hts, Htb. simpl.
  unfold try_catch, docClient_send, print. by rewrite Hsend.
Qed.

Lemma process_record_refused h i record message siteId payload e w :
  JSON_parse h (body record) = Normal message →
  member message "siteId" = Normal siteId →
  member message "body" = Normal payload →
  truthy siteId && truthy payload = true →
  send h i (build_params h i siteId payload) = Some e →
  process_record h i record w
  = (Normal tt, extend w (refused siteId (build_params h i siteId payload) e)).
Proof.
  intros Hparse Hs Hb [Hts Htb]%andb_true_iff Hsend.
  unfold process_record, mbind, M_bind, bind, lift.
  rewrite Hparse, Hs, Hb, Hts, Htb. simpl.
  unfold try_catch, docClient_send, print. rewrite Hsend.
  unfold extend; simpl. by rewrite app_nil_r.
Qed.

Lemma outcomes_extend w d : outcomes (extend w d) = outcomes w ++ outcomes d.
Proof. unfold outcomes, extend; simpl. apply omap_app. Qed.

(** A record that decodes ends normally, with exactly one outcome. *)
Lemma process_record_decodes h i record w :
  decodes h record →
  ∃ d o, process_record h i record w = (Normal tt, extend w d)
         ∧ outcomes d = [o].
Proof.
  intros (message & Hparse & Hnull & Hundef).
  pose proof (member_Normal message "siteId" Hnull Hundef) as Hs.
  pose proof (member_Normal message "body" Hnull Hundef) as Hb.
  destruct (truthy (field message "siteId") && truthy (field message "body")) eqn:Hv.
  - destruct (send h i (build_params h i (field message "siteId")
                                          (field message "body"))) as [e|] eqn:Hsend.
    + eexists _, _; split; [by eapply process_record_refused | done].
    + eexists _, _; split; [by eapply process_record_written | done].
  - eexists _, _; split; [by eapply process_record_skipped | done].
Qed.

(** The values [!v] takes for missing. *)
Lemma falsy_values v :
  truthy v = false ↔
  v = VUndefined ∨ v = VNull ∨ v = VBoolean false ∨ v = VString ""
  ∨ ∃ x, v = VNumber x ∧ (PrimFloat.is_zero x || PrimFloat.is_nan x) = true.
Proof.
  split.
  - destruct v as [| |[]|x|s| |]; simpl; intros H; try done.
    + by left.
    + by right; left.
    + by right; right; left.
    + apply negb_false_iff in H. right; right; right; right. by exists x.
    + apply negb_false_iff, String.eqb_eq in H. subst s.
      by right; right; right; left.
  - intros [->|[->|[->|[->|(x & -> & Hx)]]]]; simpl; try done.
    by rewrite Hx.
Qed.

Lemma falsy_field message k :
  truthy (field message k) = false ↔
  own_props message !! k = None
  ∨ ∃ v, own_props message !! k = Some v ∧ truthy v = false.
Proof.
  unfold field. destruct (own_props message !! k) as [v|]; simpl; split.
  - intros H. right. by exists v.
  - intros [?|(v' & ? & ?)]; by simplify_eq.
  - by left.
  - done.
Qed.

(** An empty object and an empty array are not among them. *)
Lemma truthy_object props : truthy (VObject props) = true.
Proof. done. Qed.

Lemma build_Item_timestamp siteId payload now :
  build_Item siteId payload now !! "timestamp" = Some (VString now).
Proof. unfold build_Item. apply lookup_insert_eq. Qed.

Lemma build_Item_field siteId payload now k v :
  own_props payload !! k = Some v → k ≠ "timestamp" →
  build_Item siteId payload now !! k = Some v.
Proof.
  intros Hk Hne. unfold build_Item.
  rewrite lookup_insert_ne by done.
  by apply lookup_union_Some_l.
Qed.

Lemma build_Item_siteId siteId payload now :
  own_props payload !! "siteId" = None →
  build_Item siteId payload now !! "siteId" = Some siteId.
Proof.
  intros Hk. unfold build_Item.
  rewrite lookup_insert_ne by done.
  rewrite lookup_union_r by done. apply lookup_singleton_eq.
Qed.

Lemma build_Item_other siteId payload now k :
  k ≠ "timestamp" → k ≠ "siteId" → own_props payload !! k = None →
  build_Item siteId payload now !! k = None.
Proof.
  intros H1 H2 Hk. unfold build_Item.
  rewrite lookup_insert_ne by done.
  rewrite lookup_union_r by done. by apply lookup_singleton_ne.
Qed.

(** ** The loop over the batch *)

Lemma for_of_app {A} (loop_body : nat → A → M unit) xs ys i w :
  for_of i (xs ++ ys) loop_body w
  = match for_of i xs loop_body w with
    | (Normal _, w') => for_of (i + length xs) ys loop_body w'
    | (Throw e, w') => (Throw e, w')
    end.
Proof.
  revert i w. induction xs as [|x xs IH]; intros i w; simpl.
  - by rewrite Nat.add_0_r.
  - unfold mbind, M_bind, bind.
    destruct (loop_body i x w) as [[[]|e] w']; [|done].
    rewrite IH. by replace (i + S (length xs)) with (S i + length xs) by lia.
Qed.



Lemma sqsHandler_run h event w :
  sqsHandler h event w = run h (Records event) (extend w (received event)).
Proof.
  unfold sqsHandler, run, mbind, M_bind, bind, print, extend, received; simpl.
  by rewrite !app_nil_r.
Qed.

Lemma framed_run h batch i : framed (for_of i batch (process_record h)).
Proof. apply framed_for_of. intros. apply framed_process_record. Qed.

Lemma for_of_added h batch i w :
  for_of i batch (process_record h) w
  = ((for_of i batch (process_record h) start).1, extend w (added h i batch)).
Proof. apply framed_run. Qed.

(** A batch whose bodies all decode is walked to its end, and every record
    leaves one outcome. *)
Lemma for_of_decodes h batch i :
  Forall (decodes h) batch →
  (for_of i batch (process_record h) start).1 = Normal tt
  ∧ length (outcomes (added h i batch)) = length batch.
Proof.
  intros Hall. revert i. unfold added.
  induction Hall as [|record batch Hrecord _ IH]; intros i; simpl; [done|].
  destruct (process_record_decodes h i record start Hrecord) as (d1 & o & Hstep & Ho).
  destruct (IH (S i)) as [Hc Hlen].
  unfold mbind, M_bind, bind. rewrite Hstep, extend_start_l.
  rewrite (framed_run h batch (S i) d1), Hc. simpl. split; [done|].
  rewrite outcomes_extend, length_app, Ho, Hlen. done.
Qed.

Lemma outcomes_received event : outcomes (received event) = [].
Proof. done. Qed.

Lemma sqsHandler_added h batch :
  sqsHandler h {| Records := batch |} start
  = ((for_of 0 batch (process_record h) start).1,
     extend (received {| Records := batch |}) (added h 0 batch)).
Proof.
  rewrite sqsHandler_run, extend_start_l. unfold run; simpl.
  apply for_of_added.
Qed.

Lemma world_after_added h batch :
  world_after h batch = extend (received {| Records := batch |}) (added h 0 batch).
Proof. unfold world_after. by rewrite sqsHandler_added. Qed.

Lemma sqsHandler_decodes h batch :
  Forall (decodes h) batch →
  sqsHandler h {| Records := batch |} start
  = (Normal tt, extend (received {| Records := batch |}) (added h 0 batch))
  ∧ length (outcomes (added h 0 batch)) = length batch.
Proof.
  intros Hall. rewrite sqsHandler_added.
  destruct (for_of_decodes h batch 0 Hall) as [-> Hlen]. done.
Qed.




Lemma completion_cons h record post i :
  (process_record h i record start).1 = Normal tt →
  (for_of i (record :: post) (process_record h) start).1
  = (for_of (S i) post (process_record h) start).1.
Proof.
  intros Hstep. simpl. unfold mbind, M_bind, bind.
  destruct (process_record h i record start) as [[[]|e] d]; [|done].
  by rewrite (for_of_added h post).
Qed.

(** ** The stack and the services it configures *)

Lemma batch_of_length {A} (es : Stack.SqsEventSource) (visible : list A) n :
  Stack.batchSize es = Some n → length (Service.batch_of es visible) ≤ n.
Proof.
  intros Hn. unfold Service.batch_of. rewrite Hn; simpl.
  rewrite length_take. lia.
Qed.

(** C8. The broker is configured as the contract says: the event source of
    the processor reads [telemetryQueue] in batches of at most 10 messages;
    the queue hides a received message for a visibility timeout of 60
    seconds; its dead-letter queue is [dlq] with a maximum receive count of
    3, so that a message is delivered on its first three receives and moved
    to [dlq] instead of being delivered on any later one. *)
Theorem C8_broker_configuration :
  Stack.source Stack.eventSource = Stack.telemetryQueue
  ∧ Stack.batchSize Stack.eventSource = Some 10
  ∧ (∀ visible : list SQSRecord,
       length (Service.batch_of Stack.eventSource visible) ≤ 10)
  ∧ Stack.toSeconds <$> Stack.visibilityTimeout Stack.telemetryQueue = Some 60
  ∧ Stack.deadLetterQueue Stack.telemetryQueue
    = Some {| Stack.maxReceiveCount := 3; Stack.queue := Stack.dlq |}
  ∧ (∀ n, Service.receive Stack.telemetryQueue n
          = if decide (n < 3) then Service.Delivered (S n)
            else Service.DeadLettered Stack.dlq).
Proof.
  repeat split.
  - intros visible. by apply batch_of_length.
  - intros n. unfold Service.receive; simpl.
    destruct (Nat.ltb_spec 3 (S n)); case_decide; done || lia.
Qed.

(** ** The item and the key of the table *)

(** An item built from a body without the partition key of the table does
    not carry the key of the table. *)
Lemma build_Item_lacks_table_key siteId payload now :
  own_props payload !! "deviceId" = None →
  Service.carries_key Stack.telemetryTable (build_Item siteId payload now) = false.
Proof.
  intros Hbody. unfold Service.carries_key; simpl.
  by rewrite (build_Item_other siteId payload now "deviceId").
Qed.

(** C1, at the message [{siteId: "s1", body: {temp: 21}}].  The handler sends
    one unconditional put whose item has the attributes [siteId], [temp] and
    [timestamp], to the table named by [TABLE_NAME], which the stack sets to
    [telemetryTable].  The key schema the stack gives that table is
    [deviceId] (partition) and [creationTimeISO] (sort): the item has
    neither attribute, so it does not carry the key of the table it is put
    into. *)
Theorem C1_item_not_keyed_by_table_schema :
  let h := example_host accepting in
  let record := record_of "{'siteId':'s1','body':{'temp':21}}" in
  ∃ params,
    requests (world_after h [record]) = [params]
    ∧ Item params = {[ "siteId" := VString "s1";
                       "temp" := VNumber 21;
                       "timestamp" := VString (toISOString_now h 0) ]}
    ∧ ConditionExpression params = None
    ∧ Stack.environment Stack.telemetryProcessorFunction
      = [("TABLE_NAME", Stack.tableName Stack.telemetryTable)]
    ∧ Stack.name <$> Stack.keySchema Stack.telemetryTable
      = ["deviceId"; "creationTimeISO"]
    ∧ Item params !! "deviceId" = None
    ∧ Item params !! "creationTimeISO" = None
    ∧ Service.carries_key Stack.telemetryTable (Item params) = false.
Proof.
  cbv zeta. eexists. split; [vm_compute; reflexivity|].
  repeat split; vm_compute; reflexivity.
Qed.

(** ** Validation *)

(** C4, as stated, fails: a body that decodes to the empty object is not
    skipped.  [{}] is truthy, so the message [{siteId: "s1", body: {}}]
    passes the check, a put is sent and the outcome is Success. *)
Lemma C4_counterexample_empty_object_body :
  let h := example_host accepting in
  let record := record_of "{'siteId':'s1','body':{}}" in
  let after := process_record h 0 record start in
  JSON_parse h (body record)
  = Normal (VObject {[ "siteId" := VString "s1"; "body" := VObject ∅ ]})
  ∧ outcomes after.2 = [Success]
  ∧ length (requests after.2) = 1
  ∧ ¬ (outcomes after.2 = [SkippedInvalid] ∧ requests after.2 = []).
Proof.
  cbv zeta. repeat split; try (vm_compute; reflexivity).
  intros [H _]. vm_compute in H. discriminate H.
Qed.

(** C4, amended.  For every message whose decoded payload is not [null] and
    whose [siteId] or [body] is missing or falsy ([null], [false], a zero or
    NaN number, the empty string), the outcome is SkippedInvalid, no request
    is sent to the sink and nothing is stored for that message; the handler
    goes on normally.  (An empty object or array is truthy and is not
    skipped.) *)
Theorem C4_skipped_when_field_missing_or_falsy h i record message w :
  JSON_parse h (body record) = Normal message →
  message ≠ VNull → message ≠ VUndefined →
  truthy (field message "siteId") = false ∨ truthy (field message "body") = false →
  let after := process_record h i record w in
  after.1 = Normal tt
  ∧ outcomes after.2 = outcomes w ++ [SkippedInvalid]
  ∧ requests after.2 = requests w
  ∧ stored after.2 = stored w.
Proof.
  intros Hparse Hnull Hundef Hfalsy after. subst after.
  assert (truthy (field message "siteId") && truthy (field message "body") = false)
    as Hcheck by (apply andb_false_iff; exact Hfalsy).
  rewrite (process_record_skipped h i record message _ _ w Hparse
             (member_Normal _ "siteId" Hnull Hundef)
             (member_Normal _ "body" Hnull Hundef) Hcheck).
  cbn [fst snd]. rewrite outcomes_extend. unfold extend; simpl.
  by rewrite !app_nil_r.
Qed.

Lemma C4_skipped_when_field_missing_or_falsy_witness :
  let h := example_host accepting in
  let record := record_of "{'siteId':'','body':{}}" in
  let after := process_record h 0 record start in
  after.1 = Normal tt
  ∧ outcomes after.2 = outcomes start ++ [SkippedInvalid]
  ∧ requests after.2 = requests start
  ∧ stored after.2 = stored start.
Proof.
  apply (C4_skipped_when_field_missing_or_falsy
           (example_host accepting) 0 (record_of "{'siteId':'','body':{}}")
           (VObject {[ "siteId" := VString ""; "body" := VObject ∅ ]}) start).
  - vm_compute. reflexivity.
  - discriminate.
  - discriminate.
  - left. vm_compute. reflexivity.
Defined.

(** ** The record that is written *)




(** C9.  For every message that reaches the write step, the [timestamp]
    attribute of the item is the time the processor read from the clock for
    that message, also when [body] has a top-level [timestamp] field: the
    property is written last.  A top-level [siteId] field of [body], by
    contrast, replaces the [siteId] of the message in the item. *)
Theorem C9_timestamp_last_siteId_overridden h i record message siteId payload w :
  JSON_parse h (body record) = Normal message →
  member message "siteId" = Normal siteId →
  member message "body" = Normal payload →
  truthy siteId && truthy payload = true →
  let after := process_record h i record w in
  ∃ params,
    requests after.2 = requests w ++ [params]
    ∧ Item params !! "timestamp" = Some (VString (toISOString_now h i))
    ∧ (∀ v, own_props payload !! "siteId" = Some v →
            Item params !! "siteId" = Some v).
Proof.
  intros Hparse Hs Hb Hvalid after. subst after.
  exists (build_params h i siteId payload).
  destruct (send h i (build_params h i siteId payload)) as [e|] eqn:Hsend.
  - rewrite (process_record_refused h i record message siteId payload e w) by done.
    simpl. split; [done|]. split; [apply build_Item_timestamp|].
    intros v Hv. by apply build_Item_field.
  - rewrite (process_record_written h i record message siteId payload w) by done.
    simpl. split; [done|]. split; [apply build_Item_timestamp|].
    intros v Hv. by apply build_Item_field.
Qed.

Lemma C9_timestamp_last_siteId_overridden_witness :
  let h := example_host accepting in
  let record := record_of "{'siteId':'s1','body':{'siteId':'s2','timestamp':'t0'}}" in
  let payload := VObject {[ "siteId" := VString "s2"; "timestamp" := VString "t0" ]} in
  let after := process_record h 3 record start in
  ∃ params,
    requests after.2 = requests start ++ [params]
    ∧ Item params !! "timestamp" = Some (VString (toISOString_now h 3))
    ∧ (∀ v, own_props payload !! "siteId" = Some v →
            Item params !! "siteId" = Some v).
Proof.
  apply (C9_timestamp_last_siteId_overridden
           (example_host accepting) 3
           (record_of "{'siteId':'s1','body':{'siteId':'s2','timestamp':'t0'}}")
           (VObject {[ "siteId" := VString "s1";
                       "body" := VObject {[ "siteId" := VString "s2";
                                            "timestamp" := VString "t0" ]} ]})
           (VString "s1")
           (VObject {[ "siteId" := VString "s2"; "timestamp" := VString "t0" ]}) start).
  - vm_compute. reflexivity.
  - vm_compute. reflexivity.
  - vm_compute. reflexivity.
  - vm_compute. reflexivity.
Defined.

(** C10.  The check looks at the truthiness of [body] only.  For every
    message with a non-empty string [siteId] and a [body] that is truthy and
    not an object (a non-zero number, a non-empty string, [true], an array),
    the check passes: no "missing fields" line is written and a put is sent
    for the message, with the item built from that [body]. *)
Theorem C10_truthy_non_object_body_is_written h i record message s payload w :
  JSON_parse h (body record) = Normal message →
  member message "siteId" = Normal (VString s) → s ≠ "" →
  member message "body" = Normal payload →
  truthy payload = true → is_object payload = false →
  let after := process_record h i record w in
  after.1 = Normal tt
  ∧ requests after.2 = requests w ++ [build_params h i (VString s) payload]
  ∧ ∃ o, outcomes after.2 = outcomes w ++ [o] ∧ o ≠ SkippedInvalid.
Proof.
  intros Hparse Hs Hne Hb Htruthy _ after. subst after.
  assert (truthy (VString s) && truthy payload = true) as Hvalid.
  { rewrite Htruthy, andb_true_r. simpl. apply negb_true_iff.
    by apply String.eqb_neq. }
  destruct (send h i (build_params h i (VString s) payload)) as [e|] eqn:Hsend.
  - rewrite (process_record_refused h i record message (VString s) payload e w) by done.
    cbn [fst snd]. rewrite outcomes_extend.
    split; [done|]. split; [done|]. by exists StorageFailure.
  - rewrite (process_record_written h i record message (VString s) payload w) by done.
    cbn [fst snd]. rewrite outcomes_extend.
    split; [done|]. split; [done|]. by exists Success.
Qed.

Lemma C10_truthy_non_object_body_is_written_witness :
  let h := example_host accepting in
  let record := record_of "{'siteId':'s1','body':5}" in
  let after := process_record h 0 record start in
  after.1 = Normal tt
  ∧ requests after.2 = requests start ++ [build_params h 0 (VString "s1") (VNumber 5)]
  ∧ ∃ o, outcomes after.2 = outcomes start ++ [o] ∧ o ≠ SkippedInvalid.
Proof.
  apply (C10_truthy_non_object_body_is_written
           (example_host accepting) 0 (record_of "{'siteId':'s1','body':5}")
           (VObject {[ "siteId" := VString "s1"; "body" := VNumber 5 ]}) "s1"
           (VNumber 5) start).
  - vm_compute. reflexivity.
  - vm_compute. reflexivity.
  - discriminate.
  - vm_compute. reflexivity.
  - vm_compute. reflexivity.
  - reflexivity.
Defined.

(** ** The end-to-end scenario *)

(** C7.  For the batch [{siteId: "s1", body: {temp: 21}}],
    [{siteId: "", body: {}}], [{siteId: "s2"}], with a sink that accepts
    every put, the handler returns normally, the outcomes are Success,
    SkippedInvalid, SkippedInvalid, and exactly one record is stored: the
    one built for the first message, whose [siteId] is "s1". *)
Theorem C7_end_to_end_scenario h r1 r2 r3 :
  JSON_parse h (body r1)
  = Normal (VObject {[ "siteId" := VString "s1";
                       "body" := VObject {[ "temp" := VNumber 21 ]} ]}) →
  JSON_parse h (body r2)
  = Normal (VObject {[ "siteId" := VString ""; "body" := VObject ∅ ]}) →
  JSON_parse h (body r3) = Normal (VObject {[ "siteId" := VString "s2" ]}) →
  (∀ i params, send h i params = None) →
  let result := sqsHandler h {| Records := [r1; r2; r3] |} start in
  let params := build_params h 0 (VString "s1") (VObject {[ "temp" := VNumber 21 ]}) in
  result.1 = Normal tt
  ∧ outcomes result.2 = [Success; SkippedInvalid; SkippedInvalid]
  ∧ stored result.2 = [params]
  ∧ Item params !! "siteId" = Some (VString "s1")
  ∧ Item params !! "temp" = Some (VNumber 21).
Proof.
  intros H1 H2 H3 Hsink result params. subst result.
  rewrite sqsHandler_run, extend_start_l. unfold run.
  cbn [Records for_of]. unfold mbind, M_bind, bind.
  rewrite (process_record_written h 0 r1 _ (VString "s1")
             (VObject {[ "temp" := VNumber 21 ]}) _ H1 eq_refl eq_refl eq_refl
             (Hsink _ _)).
  rewrite (process_record_skipped h 1 r2 _ (VString "") (VObject ∅) _ H2
             eq_refl eq_refl eq_refl).
  rewrite (process_record_skipped h 2 r3 _ (VString "s2") VUndefined _ H3
             eq_refl eq_refl eq_refl).
  unfold ret. cbn [fst snd]. rewrite !outcomes_extend.
  split; [done|]. split; [done|]. split; [done|].
  split; [by apply build_Item_siteId | by apply build_Item_field].
Qed.

Lemma C7_end_to_end_scenario_witness :
  let h := example_host accepting in
  let r1 := record_of "{'siteId':'s1','body':{'temp':21}}" in
  let r2 := record_of "{'siteId':'','body':{}}" in
  let r3 := record_of "{'siteId':'s2'}" in
  let result := sqsHandler h {| Records := [r1; r2; r3] |} start in
  let params := build_params h 0 (VString "s1") (VObject {[ "temp" := VNumber 21 ]}) in
  result.1 = Normal tt
  ∧ outcomes result.2 = [Success; SkippedInvalid; SkippedInvalid]
  ∧ stored result.2 = [params]
  ∧ Item params !! "siteId" = Some (VString "s1")
  ∧ Item params !! "temp" = Some (VNumber 21).
Proof.
  apply (C7_end_to_end_scenario
           (example_host accepting)
           (record_of "{'siteId':'s1','body':{'temp':21}}")
           (record_of "{'siteId':'','body':{}}")
           (record_of "{'siteId':'s2'}")).
  - vm_compute. reflexivity.
  - vm_compute. reflexivity.
  - vm_compute. reflexivity.
  - reflexivity.
Defined.

(** ** Bodies that do not decode *)




(** ** Acknowledgment *)




(** ** Isolation of a storage failure *)







(** ** More runs of the handler *)

(** A body that is a non-empty string passes the check; the spread copies
    its characters under their positions. *)
Example string_body_is_written :
  requests (world_after (example_host accepting)
              [record_of "{'siteId':'s1','body':'ab'}"])
  = [{| TableName := Some "TelemetriesStore";
        Item := {[ "siteId" := VString "s1";
                   "0" := VString "a";
                   "1" := VString "b";
                   "timestamp" := VString "2024-05-01T12:00:00.000Z" ]};
        ConditionExpression := None |}].
Proof. vm_compute. reflexivity. Qed.

Example true_body_is_written :
  outcomes (world_after (example_host accepting)
              [record_of "{'siteId':'s1','body':true}"]) = [Success]
  ∧ Item <$> requests (world_after (example_host accepting)
                         [record_of "{'siteId':'s1','body':true}"])
    = [{[ "siteId" := VString "s1";
          "timestamp" := VString "2024-05-01T12:00:00.000Z" ]}].
Proof. split; vm_compute; reflexivity. Qed.

(** Zero, [false], [null] and the empty string are skipped, as [siteId] or
    as [body]. *)
Example falsy_fields_are_skipped :
  outcomes (world_after (example_host accepting)
              [record_of "{'siteId':'s1','body':0}";
               record_of "{'siteId':'s1','body':false}";
               record_of "{'siteId':null,'body':{'temp':1}}";
               record_of "{'siteId':'s1','body':''}";
               record_of "[1,2]";
               record_of "7"])
  = [SkippedInvalid; SkippedInvalid; SkippedInvalid; SkippedInvalid;
     SkippedInvalid; SkippedInvalid].
Proof. vm_compute. reflexivity. Qed.

(** The text [null] decodes, and reading [siteId] from it throws. *)
Example null_payload_throws :
  sqsHandler (example_host accepting) {| Records := [record_of "null"] |} start
  = (Throw TypeError, received {| Records := [record_of "null"] |}).
Proof. vm_compute. reflexivity. Qed.

(** ** What one record can do

    The lemmas from here to the API Gateway handler are about [sqsHandler]
    as defined at the top, without the conversion of [siteId] in the log
    lines; the theorems on [Templates.sqsHandler] at the end build on
    them. *)

(** A record throws before it has done anything, or adds one of three
    things to the world. *)
Lemma process_record_shape h i record :
  (¬ decodes h record ∧ ∃ e, process_record h i record start = (Throw e, start))
  ∨ (decodes h record
     ∧ ∃ d, process_record h i record start = (Normal tt, d)
            ∧ (d = skipped
               ∨ (∃ siteId payload,
                    d = written siteId (build_params h i siteId payload))
               ∨ (∃ siteId payload e,
                    d = refused siteId (build_params h i siteId payload) e))).
Proof.
  destruct (JSON_parse h (body record)) as [message|e] eqn:Hparse.
  2:{ left. split; [|exists e; by apply process_record_undecodable].
      intros (message & Hm & _). congruence. }
  destruct (member message "siteId") as [siteId|e] eqn:Hs.
  2:{ left. split; [|exists e; by eapply process_record_no_members].
      intros (message' & Hm & Hnull & Hundef).
      assert (message' = message) as -> by congruence.
      by rewrite member_Normal in Hs. }
  destruct (member_inv _ _ _ Hs) as (Hnull & Hundef & _).
  pose proof (member_Normal message "body" Hnull Hundef) as Hb.
  right. split; [by exists message|].
  destruct (truthy siteId && truthy (field message "body")) eqn:Hvalid.
  - destruct (send h i (build_params h i siteId (field message "body")))
      as [e|] eqn:Hsend.
    + eexists. split.
      * rewrite (process_record_refused h i record message siteId _ e start)
          by done. by rewrite extend_start_l.
      * right; right. by eexists _, _, _.
    + eexists. split.
      * rewrite (process_record_written h i record message siteId _ start)
          by done. by rewrite extend_start_l.
      * right; left. by eexists _, _.
  - eexists. split.
    + rewrite (process_record_skipped h i record message siteId _ start)
        by done. by rewrite extend_start_l.
    + by left.
Qed.



(** ** When the invocation fails *)

(** The handler returns normally exactly when every body of the batch
    decodes to a value other than [null]: a body that is not JSON, or the
    text [null], is the only way for the invocation to fail. *)
Lemma sqsHandler_returns_iff_all_decode h batch :
  (sqsHandler h {| Records := batch |} start).1 = Normal tt
  ↔ Forall (decodes h) batch.
Proof.
  split; [|intros Hall; by destruct (sqsHandler_decodes h batch Hall) as [-> _]].
  rewrite sqsHandler_added. cbn [fst]. generalize 0.
  induction batch as [|record batch IH]; intros i Hc; [constructor|].
  destruct (process_record_shape h i record)
    as [[_ [e He]]|[Hdec (d & Hd & _)]].
  - simpl in Hc. unfold mbind, M_bind, bind in Hc. by rewrite He in Hc.
  - constructor; [done|]. apply (IH (S i)).
    rewrite completion_cons in Hc; [done | by rewrite Hd].
Qed.

(** ** Requests and outcomes *)


Lemma build_Item_has_siteId siteId payload now :
  is_Some (build_Item siteId payload now !! "siteId").
Proof.
  destruct (own_props payload !! "siteId") as [v|] eqn:Hv.
  - exists v. by apply build_Item_field.
  - exists siteId. by apply build_Item_siteId.
Qed.

Lemma build_params_well_formed h n i siteId payload :
  i < n → well_formed_request h n (build_params h i siteId payload).
Proof.
  intros Hi. split; [done|]. split; [done|].
  split; [apply build_Item_has_siteId|].
  exists i. split; [done | apply build_Item_timestamp].
Qed.

(** ** The attributes of the item *)

(** For every message that reaches the write step, the item sent has
    exactly the top-level fields of [body] plus [siteId] and [timestamp]:
    nothing of the envelope of the message (its id, its receive count) is
    written. *)
Lemma item_attribute_names h i record message siteId payload w :
  JSON_parse h (body record) = Normal message →
  member message "siteId" = Normal siteId →
  member message "body" = Normal payload →
  truthy siteId && truthy payload = true →
  let after := process_record h i record w in
  ∃ params,
    requests after.2 = requests w ++ [params]
    ∧ dom (Item params) = {[ "siteId"; "timestamp" ]} ∪ dom (own_props payload).
Proof.
  intros Hparse Hs Hb Hvalid after. subst after.
  exists (build_params h i siteId payload). split.
  - destruct (send h i (build_params h i siteId payload)) as [e|] eqn:Hsend.
    + by rewrite (process_record_refused h i record message siteId payload e w).
    + by rewrite (process_record_written h i record message siteId payload w).
  - simpl. unfold build_Item.
    rewrite dom_insert_L, dom_union_L, dom_singleton_L.
    rewrite (union_comm_L (dom (own_props payload))), union_assoc_L.
    by rewrite (union_comm_L {["timestamp"]}).
Qed.

(** ** A message delivered twice *)


(** ** Payloads that are not objects *)

Lemma pretty_N_go_head x s c s' :
  (∀ d, pretty_N_char d ≠ c) → s ≠ String c s' → pretty_N_go x s ≠ String c s'.
Proof.
  intros Hc. revert s. induction (N.lt_wf_0 x) as [x _ IH]; intros s Hs.
  assert (x = 0 ∨ 0 < x)%N as [->|Hpos] by lia.
  - by rewrite pretty_N_go_0.
  - rewrite pretty_N_go_step by done. apply IH.
    + by apply N.div_lt.
    + intros Heq. injection Heq as Hd _. by apply Hc in Hd.
Qed.

(** An index never reads as a name that starts with a letter. *)
Lemma pretty_nat_head (i : nat) c s' :
  (∀ d, pretty_N_char d ≠ c) → pretty i ≠ String c s'.
Proof.
  intros Hc. unfold pretty, pretty_nat, pretty, pretty_N.
  case_decide.
  - intros Heq. injection Heq as Hd _. by apply (Hc 0%N).
  - by apply pretty_N_go_head.
Qed.

Lemma indexed_lookup_None {A} (f : A → value) l k :
  (∀ i : nat, pretty i ≠ k) → indexed f l !! k = None.
Proof.
  intros Hk. unfold indexed. apply not_elem_of_list_to_map_1.
  intros Hin. apply list_elem_of_fmap in Hin as ([k' v] & -> & Hin).
  apply elem_of_lookup_imap in Hin as (i & x & Heq & _).
  injection Heq as Hk' _. by apply (Hk i).
Qed.

Lemma non_object_has_no_field message c s' :
  (∀ d, pretty_N_char d ≠ c) → is_object message = false →
  field message (String c s') = VUndefined.
Proof.
  intros Hc Hno. unfold field.
  destruct message; try done; simpl;
    rewrite indexed_lookup_None; try done;
    intros i; by apply pretty_nat_head.
Qed.

(** A body that decodes to a number, a boolean, a string or an array has no
    [siteId]: the message is SkippedInvalid, nothing is sent and the handler
    goes on. *)
Lemma non_object_payload_skipped h i record message w :
  JSON_parse h (body record) = Normal message →
  message ≠ VNull → message ≠ VUndefined →
  is_object message = false →
  let after := process_record h i record w in
  after.1 = Normal tt
  ∧ outcomes after.2 = outcomes w ++ [SkippedInvalid]
  ∧ requests after.2 = requests w
  ∧ stored after.2 = stored w.
Proof.
  intros Hparse Hnull Hundef Hno after. subst after.
  assert (field message "siteId" = VUndefined) as Hfield.
  { apply non_object_has_no_field; [|done].
    intros d. unfold pretty_N_char. by repeat case_match. }
  assert (truthy (field message "siteId") && truthy (field message "body") = false)
    as Hcheck by (by rewrite Hfield).
  rewrite (process_record_skipped h i record message _ _ w Hparse
             (member_Normal _ "siteId" Hnull Hundef)
             (member_Normal _ "body" Hnull Hundef) Hcheck).
  cbn [fst snd]. rewrite outcomes_extend. unfold extend; simpl.
  by rewrite !app_nil_r.
Qed.

(** ** The response of the API Gateway handler *)

Lemma escaped_cons c s :
  Encoder.escaped (String c s) = Encoder.escape c ++ Encoder.escaped s.
Proof. done. Qed.

Lemma plain_cons c s :
  Encoder.plain (String c s) = true →
  (negb (N_of_ascii c <? 32)%N
   || Ascii.eqb c "008" || Ascii.eqb c "009" || Ascii.eqb c "010"
   || Ascii.eqb c "012" || Ascii.eqb c "013") = true
  ∧ Encoder.plain s = true.
Proof. unfold Encoder.plain; simpl. by intros [??]%andb_true_iff. Qed.

(** Reading back the inside of a string literal. *)
Lemma read_string_escaped s rest :
  Encoder.plain s = true →
  Decoder.read_string (Encoder.escaped s ++ Decoder.dquote :: rest)
  = Some (s, rest).
Proof.
  induction s as [|c s IH]; intros Hplain; [done|].
  apply plain_cons in Hplain as [Hc Hs]. specialize (IH Hs).
  rewrite escaped_cons, <-app_assoc. unfold Encoder.escape.
  destruct (Ascii.eqb c Decoder.dquote) eqn:E1.
  { apply Ascii.eqb_eq in E1 as ->. simpl. by rewrite IH. }
  destruct (Ascii.eqb c "\") eqn:E2.
  { apply Ascii.eqb_eq in E2 as ->. simpl. by rewrite IH. }
  destruct (Ascii.eqb c "008") eqn:E3.
  { apply Ascii.eqb_eq in E3 as ->. simpl. by rewrite IH. }
  destruct (Ascii.eqb c "012") eqn:E4.
  { apply Ascii.eqb_eq in E4 as ->. simpl. by rewrite IH. }
  destruct (Ascii.eqb c "010") eqn:E5.
  { apply Ascii.eqb_eq in E5 as ->. simpl. by rewrite IH. }
  destruct (Ascii.eqb c "013") eqn:E6.
  { apply Ascii.eqb_eq in E6 as ->. simpl. by rewrite IH. }
  destruct (Ascii.eqb c "009") eqn:E7.
  { apply Ascii.eqb_eq in E7 as ->. simpl. by rewrite IH. }
  destruct (N_of_ascii c <? 32)%N eqn:E8; [done|].
  cbn [app Decoder.read_string]. by rewrite E1, E2, E8, IH.
Qed.

Lemma read_value_quote fuel s rest :
  Encoder.plain s = true →
  Decoder.read_value (S fuel) (Encoder.quote s ++ rest) = Some (VString s, rest).
Proof.
  intros Hplain. unfold Encoder.quote.
  rewrite <-app_comm_cons, <-app_assoc. simpl.
  by rewrite read_string_escaped.
Qed.

Lemma quote_app s rest :
  Encoder.quote s ++ rest
  = Decoder.dquote :: Encoder.escaped s ++ Decoder.dquote :: rest.
Proof. unfold Encoder.quote. by rewrite <-app_comm_cons, <-app_assoc. Qed.

Lemma read_members_S fuel s :
  Decoder.read_members (S fuel) s
  = match Decoder.skip_ws s with
    | c :: rest =>
        if Ascii.eqb c Decoder.dquote then
          '(k, tl) ← Decoder.read_string rest;
          match Decoder.skip_ws tl with
          | c' :: tl' =>
              if Ascii.eqb c' ":" then
                '(v, tl'') ← Decoder.read_value fuel tl';
                match Decoder.skip_ws tl'' with
                | c'' :: tl3 =>
                    if Ascii.eqb c'' "," then
                      '(kvs, tl4) ← Decoder.read_members fuel tl3;
                      Some ((k, v) :: kvs, tl4)
                    else if Ascii.eqb c'' "}" then Some ([(k, v)], tl3)
                    else None
                | [] => None
                end
              else None
          | [] => None
          end
        else None
    | [] => None
    end.
Proof. done. Qed.

(** One member of an object, and what follows it. *)
Lemma read_member fuel k v rest :
  Encoder.plain k = true → Encoder.plain v = true →
  Decoder.read_members (S (S fuel))
    (Encoder.quote k ++ ":"%char :: Encoder.quote v ++ rest)
  = match Decoder.skip_ws rest with
    | c :: tl =>
        if Ascii.eqb c "," then
          '(kvs, tl') ← Decoder.read_members (S fuel) tl;
          Some ((k, VString v) :: kvs, tl')
        else if Ascii.eqb c "}" then Some ([(k, VString v)], tl)
        else None
    | [] => None
    end.
Proof.
  intros Hk Hv. rewrite read_members_S, quote_app.
  change (Decoder.skip_ws (Decoder.dquote :: ?l)) with (Decoder.dquote :: l).
  change (Ascii.eqb Decoder.dquote Decoder.dquote) with true. cbn iota.
  rewrite read_string_escaped by done. cbn [mbind option_bind].
  change (Decoder.skip_ws (":"%char :: ?l)) with (":"%char :: l).
  change (Ascii.eqb ":" ":") with true. cbn iota.
  rewrite read_value_quote by done. cbn [mbind option_bind].
  done.
Qed.

Lemma read_members_members fields :
  ∀ fuel rest,
    fields ≠ [] →
    Forall (λ kv, Encoder.plain kv.1 = true ∧ Encoder.plain kv.2 = true) fields →
    length fields < fuel →
    Decoder.read_members fuel (Encoder.members fields ++ "}"%char :: rest)
    = Some ((λ kv, (kv.1, VString kv.2)) <$> fields, rest).
Proof.
  induction fields as [|[k v] fields IH]; intros fuel rest Hne Hplain Hfuel; [done|].
  apply Forall_cons in Hplain as [[Hk Hv] Hplain]. simpl in Hk, Hv.
  destruct fuel as [|[|fuel]]; [simpl in Hfuel; lia..|].
  destruct fields as [|kv fields].
  - cbn [Encoder.members]. rewrite <-app_assoc. cbn [app].
    rewrite read_member by done. done.
  - assert (Encoder.members ((k, v) :: kv :: fields)
            = Encoder.quote k ++ ":"%char :: Encoder.quote v
              ++ ","%char :: Encoder.members (kv :: fields)) as -> by done.
    rewrite <-app_assoc. cbn [app]. rewrite <-app_assoc. cbn [app].
    rewrite read_member by done.
    change (Decoder.skip_ws (","%char :: ?l)) with (","%char :: l).
    change (Ascii.eqb "," ",") with true. cbn iota.
    rewrite (IH (S fuel) rest); [done|done|done|simpl in *; lia].
Qed.

Lemma members_length fields : length fields ≤ length (Encoder.members fields).
Proof.
  induction fields as [|[k v] fields IH]; [done|].
  destruct fields as [|kv fields].
  - cbn [Encoder.members]. rewrite length_app. cbn [length]. lia.
  - assert (Encoder.members ((k, v) :: kv :: fields)
            = Encoder.quote k ++ ":"%char :: Encoder.quote v
              ++ ","%char :: Encoder.members (kv :: fields)) as -> by done.
    rewrite length_app. cbn [length]. rewrite length_app. cbn [length] in *.
    lia.
Qed.

Lemma read_value_object fuel s :
  Decoder.read_value (S fuel) ("{"%char :: Decoder.dquote :: s)
  = '(kvs, tl) ← Decoder.read_members fuel (Decoder.dquote :: s);
    Some (Decoder.object_of kvs, tl).
Proof. done. Qed.

(** The text of an object of plain strings decodes to that object. *)
Lemma parse_stringify fields :
  Forall (λ kv, Encoder.plain kv.1 = true ∧ Encoder.plain kv.2 = true) fields →
  Decoder.parse (Encoder.stringify fields)
  = Normal (Decoder.object_of ((λ kv, (kv.1, VString kv.2)) <$> fields)).
Proof.
  intros Hplain. unfold Decoder.parse, Encoder.stringify.
  rewrite String.list_ascii_of_string_of_list_ascii.
  destruct fields as [|[k v] fields]; [done|].
  remember ((k, v) :: fields) as fs eqn:Hfs.
  assert (fs ≠ []) as Hne by (by subst fs).
  assert (∃ tl, Encoder.members fs = Decoder.dquote :: tl) as [tl Htl].
  { subst fs. destruct fields; simpl; eauto. }
  pose proof (members_length fs) as Hlen.
  cbn [length]. rewrite Htl at 2. rewrite <-app_comm_cons, read_value_object.
  rewrite app_comm_cons, <-Htl.
  rewrite (read_members_members fs _ [] Hne Hplain); [done|].
  rewrite length_app. simpl. lia.
Qed.

(** X9.  Whatever the event, [apiGatewayHandler] answers 200, and the body of
    its response is a JSON text that decodes to an object with exactly
    three fields: the fixed message, the request id of the invocation and
    the time of the response.  (For a request id and a time made of
    characters that need no [\u] escape.) *)
Theorem apiGatewayHandler_response now event context :
  Encoder.plain (awsRequestId context) = true →
  Encoder.plain now = true →
  let response := apiGatewayHandler now event context in
  APIGatewayProxyResult.statusCode response = 200
  ∧ Decoder.parse (APIGatewayProxyResult.body response)
    = Normal (VObject {[ "message" := VString "Telemetry data processed successfully";
                         "requestId" := VString (awsRequestId context);
                         "timestamp" := VString now ]}).
Proof.
  intros Hid Hnow response. subst response. split; [done|].
  unfold apiGatewayHandler. cbn [APIGatewayProxyResult.body].
  rewrite parse_stringify.
  - reflexivity.
  - repeat (apply Forall_cons_2); [done..|apply Forall_nil_2].
Qed.

Lemma apiGatewayHandler_response_witness :
  let now := "2024-05-01T12:00:00.000Z" in
  let event := {| APIGatewayProxyEvent.httpMethod := "POST";
                  APIGatewayProxyEvent.path := "/write/s1";
                  APIGatewayProxyEvent.pathParameters := {[ "siteId" := "s1" ]};
                  APIGatewayProxyEvent.body := Some "{}" |} in
  let context := {| awsRequestId := "c6af9ac6-7b61-11e6-9a41-93e8deadbeef" |} in
  let response := apiGatewayHandler now event context in
  APIGatewayProxyResult.statusCode response = 200
  ∧ Decoder.parse (APIGatewayProxyResult.body response)
    = Normal (VObject {[ "message" := VString "Telemetry data processed successfully";
                         "requestId" := VString (awsRequestId context);
                         "timestamp" := VString now ]}).
Proof.
  apply (apiGatewayHandler_response
           "2024-05-01T12:00:00.000Z"
           {| APIGatewayProxyEvent.httpMethod := "POST";
              APIGatewayProxyEvent.path := "/write/s1";
              APIGatewayProxyEvent.pathParameters := {[ "siteId" := "s1" ]};
              APIGatewayProxyEvent.body := Some "{}" |}
           {| awsRequestId := "c6af9ac6-7b61-11e6-9a41-93e8deadbeef" |}).
  - vm_compute. reflexivity.
  - vm_compute. reflexivity.
Defined.

(** ** The REST API in front of the queue *)

(** X10.  The role API Gateway assumes for the integration can do one thing: send
    a message to the queue the processor reads.  It cannot receive or
    delete messages, and it cannot touch the dead-letter queue or the
    table. *)
Theorem gateway_role_only_sends_to_telemetry_queue action resource :
  Gateway.allows (Gateway.credentialsRole Gateway.integration) action resource
  ↔ action = "sqs:SendMessage"
    ∧ resource = Gateway.queueArn (Stack.source Stack.eventSource).
Proof.
  unfold Gateway.allows. simpl. split.
  - intros (name & doc & st & Hdoc & Hst & Haction & Hresource).
    apply list_elem_of_singleton in Hdoc. injection Hdoc as -> ->.
    simpl in Hst. apply list_elem_of_singleton in Hst as ->.
    simpl in Haction, Hresource.
    by apply list_elem_of_singleton in Haction, Hresource.
  - intros [-> ->]. eexists _, _, _.
    split; [apply list_elem_of_singleton; reflexivity|].
    split; [apply list_elem_of_singleton; reflexivity|].
    split; by apply list_elem_of_singleton.
Qed.

Lemma resolve_nil r : Gateway.resolve [] r = Some (r, []).
Proof. done. Qed.

Lemma resolve_below_write segment rest :
  Gateway.resolve (segment :: rest) Gateway.write
  = match rest with
    | [] => Some (Gateway.siteId, [("siteId", segment)])
    | _ :: _ => None
    end.
Proof. by destruct rest. Qed.

Lemma resolve_below_root segment rest :
  Gateway.resolve (segment :: rest) Gateway.root
  = if String.eqb "write" segment then Gateway.resolve rest Gateway.write else None.
Proof.
  change (Gateway.resolve (segment :: rest) Gateway.root)
    with (match Gateway.match_part "write" segment with
          | Some bound =>
              match Gateway.resolve rest Gateway.write with
              | Some (found, bindings) => Some (found, bound ++ bindings)
              | None => None
              end
          | None => None
          end).
  unfold Gateway.match_part.
  change (Gateway.param_name "write") with (@None string).
  destruct (String.eqb "write" segment); [|done].
  by destruct (Gateway.resolve rest Gateway.write) as [[found bindings]|].
Qed.

(** X11.  The API serves one kind of request: [POST /write/<siteId>], through the
    integration with the queue and with the last segment bound to
    [siteId].  Any other method or path has no route. *)
Theorem route_is_post_write_siteId method segments result :
  Gateway.route method segments = Some result
  ↔ method = "POST"
    ∧ ∃ s, segments = ["write"; s]
           ∧ result = (Gateway.integration, [("siteId", s)]).
Proof.
  unfold Gateway.route. destruct segments as [|a [|b rest]].
  - rewrite resolve_nil. simpl. split; [done|]. by intros [_ (s & ? & _)].
  - rewrite resolve_below_root.
    destruct (String.eqb "write" a); simpl;
      (split; [done|]; by intros [_ (s & ? & _)]).
  - rewrite resolve_below_root.
    destruct (String.eqb_spec "write" a) as [<-|Hne].
    + rewrite resolve_below_write. destruct rest as [|c rest].
      * cbn [Gateway.methods Gateway.siteId list_find].
        destruct (decide (("POST", Gateway.integration).1 = method)) as [Hm|Hm];
          simpl in Hm; simpl.
        -- split.
           ++ intros [= <-]. split; [done|]. by exists b.
           ++ intros [_ (s & [= ->] & ->)]. done.
        -- split; [done|]. by intros [? _].
      * split; [done|]. by intros [_ (s & ? & _)].
    + split; [done|]. intros [_ (s & [= ? ?] & _)]. by subst.
Qed.

(** ** The handler with its log lines converted *)

Lemma framed_interpolate v : framed (Templates.interpolate v).
Proof.
  unfold Templates.interpolate.
  destruct (converts v); [apply framed_ret | apply framed_lift].
Qed.

Lemma framed_Templates_process_record h i record :
  framed (Templates.process_record h i record).
Proof.
  unfold Templates.process_record.
  apply framed_bind; [apply framed_lift | intros message].
  apply framed_bind; [apply framed_lift | intros siteId].
  apply framed_bind; [apply framed_lift | intros payload].
  destruct (negb (truthy siteId) || negb (truthy payload)).
  - apply framed_print.
  - apply framed_try_catch.
    + apply framed_bind; [apply framed_docClient_send | intros _].
      apply framed_bind; [apply framed_interpolate | intros _; apply framed_print].
    + intros e.
      apply framed_bind; [apply framed_interpolate | intros _; apply framed_print].
Qed.

Lemma framed_Templates_run h batch i :
  framed (for_of i batch (Templates.process_record h)).
Proof. apply framed_for_of. intros. apply framed_Templates_process_record. Qed.

Lemma Templates_sqsHandler_run h event w :
  Templates.sqsHandler h event w
  = for_of 0 (Records event) (Templates.process_record h)
      (extend w (received event)).
Proof.
  unfold Templates.sqsHandler, mbind, M_bind, bind, print, extend, received; simpl.
  by rewrite !app_nil_r.
Qed.

Lemma Templates_sqsHandler_start h batch :
  Templates.sqsHandler h {| Records := batch |} start
  = ((for_of 0 batch (Templates.process_record h) start).1,
     extend (received {| Records := batch |})
            (for_of 0 batch (Templates.process_record h) start).2).
Proof.
  rewrite Templates_sqsHandler_run, extend_start_l. cbn [Records].
  apply framed_Templates_run.
Qed.

(** A record is loggable, or it is a message that passes the check with a
    [siteId] that does not convert. *)
Lemma loggable_cases h record :
  loggable h record
  ∨ ∃ message,
      JSON_parse h (body record) = Normal message
      ∧ message ≠ VNull ∧ message ≠ VUndefined
      ∧ truthy (field message "siteId") && truthy (field message "body") = true
      ∧ converts (field message "siteId") = false.
Proof.
  destruct (JSON_parse h (body record)) as [message|e] eqn:Hparse.
  2:{ left. intros message Hm. congruence. }
  destruct (truthy (field message "siteId") && truthy (field message "body"))
    eqn:Hvalid.
  2:{ left. intros message' Hm. assert (message' = message) as -> by congruence.
      congruence. }
  destruct (converts (field message "siteId")) eqn:Hconv.
  { left. intros message' Hm _. by assert (message' = message) as -> by congruence. }
  right. exists message. repeat split; try done.
  - intros ->. done.
  - intros ->. done.
Qed.

Lemma Templates_process_record_loggable h i record w :
  loggable h record →
  Templates.process_record h i record w = process_record h i record w.
Proof.
  intros Hlog. unfold Templates.process_record, process_record.
  unfold mbind, M_bind, bind, lift.
  destruct (JSON_parse h (body record)) as [message|e] eqn:Hparse; [|done].
  destruct (member message "siteId") as [siteId|e] eqn:Hs; [|done].
  destruct (member message "body") as [payload|e] eqn:Hb; [|done].
  destruct (member_inv _ _ _ Hs) as (_ & _ & ->).
  destruct (member_inv _ _ _ Hb) as (_ & _ & ->).
  destruct (truthy (field message "siteId")) eqn:Hts; [|done].
  destruct (truthy (field message "body")) eqn:Htb; [|done].
  cbn [negb orb]. unfold try_catch, Templates.interpolate.
  rewrite (Hlog message Hparse) by (by rewrite Hts, Htb).
  unfold docClient_send, ret.
  by destruct (send h i _).
Qed.

Lemma Templates_process_record_unloggable h i record message w :
  JSON_parse h (body record) = Normal message →
  message ≠ VNull → message ≠ VUndefined →
  truthy (field message "siteId") && truthy (field message "body") = true →
  converts (field message "siteId") = false →
  Templates.process_record h i record w
  = (Throw TypeError,
     extend w (put_only h i (field message "siteId") (field message "body"))).
Proof.
  intros Hparse Hnull Hundef [Hts Htb]%andb_true_iff Hconv.
  unfold Templates.process_record, mbind, M_bind, bind, lift.
  rewrite Hparse, !member_Normal by done. rewrite Hts, Htb. cbn [negb orb].
  unfold try_catch, Templates.interpolate, docClient_send, put_only, extend, lift.
  rewrite Hconv. simpl.
  destruct (send h i _); simpl; by rewrite !app_nil_r.
Qed.

Lemma Templates_for_of_loggable h batch i w :
  Forall (loggable h) batch →
  for_of i batch (Templates.process_record h) w
  = for_of i batch (process_record h) w.
Proof.
  intros Hall. revert i w.
  induction Hall as [|record batch Hrecord _ IH]; intros i w; [done|].
  simpl. unfold mbind, M_bind, bind.
  rewrite Templates_process_record_loggable by done.
  destruct (process_record h i record w) as [[[]|e] w']; [apply IH | done].
Qed.

Lemma Templates_sqsHandler_loggable h batch w :
  Forall (loggable h) batch →
  Templates.sqsHandler h {| Records := batch |} w
  = sqsHandler h {| Records := batch |} w.
Proof.
  intros Hall. rewrite Templates_sqsHandler_run, sqsHandler_run.
  by apply Templates_for_of_loggable.
Qed.

Lemma Templates_world_after_loggable h batch :
  Forall (loggable h) batch → Templates.world_after h batch = world_after h batch.
Proof.
  intros Hall. unfold Templates.world_after, world_after.
  by rewrite Templates_sqsHandler_loggable.
Qed.

(** X1.  The invocation succeeds exactly when every body of the batch
    decodes to a value other than [null] and no message that passes the
    check has a [siteId] that fails to convert to a string.  A body that is
    not JSON, the text [null], and such a [siteId] are the only ways for
    the handler to throw. *)
Theorem returns_iff_decodable_and_loggable h batch :
  (Templates.sqsHandler h {| Records := batch |} start).1 = Normal tt
  ↔ Forall (λ record, decodes h record ∧ loggable h record) batch.
Proof.
  split.
  - rewrite Templates_sqsHandler_start. cbn [fst]. generalize 0.
    induction batch as [|record batch IH]; intros i Hc; [constructor|].
    simpl in Hc. unfold mbind, M_bind, bind in Hc.
    destruct (loggable_cases h record)
      as [Hlog|(message & Hparse & Hnull & Hundef & Hvalid & Hconv)].
    + rewrite Templates_process_record_loggable in Hc by done.
      destruct (process_record_shape h i record)
        as [[_ [e He]]|[Hdec (d & Hd & _)]]; rewrite ?He, ?Hd in Hc; [done|].
      constructor; [done|]. apply (IH (S i)).
      by rewrite (framed_Templates_run h batch (S i) d) in Hc.
    + by rewrite (Templates_process_record_unloggable h i record message)
        in Hc.
  - intros Hall. apply Forall_and in Hall as [Hdec Hlog].
    rewrite Templates_sqsHandler_loggable by done.
    by apply sqsHandler_returns_iff_all_decode.
Qed.

(** X13.  A message that passes the check with a [siteId] that does not
    convert to a string (an object with a [toString] field) is put to the
    sink and then ends the invocation: the log line after the put throws a
    [TypeError], inside [try] and again inside [catch].  The put has been
    sent, and stored if the sink took it; the message has no outcome, and
    the messages after it are not processed. *)
Theorem unconvertible_siteId_fails_after_put h pre record post message :
  Forall (decodes h) pre → Forall (loggable h) pre →
  JSON_parse h (body record) = Normal message →
  message ≠ VNull → message ≠ VUndefined →
  truthy (field message "siteId") && truthy (field message "body") = true →
  converts (field message "siteId") = false →
  let result := Templates.sqsHandler h {| Records := pre ++ record :: post |} start in
  let params := build_params h (length pre) (field message "siteId")
                             (field message "body") in
  result.1 = Throw TypeError
  ∧ outcomes result.2 = outcomes (Templates.world_after h pre)
  ∧ requests result.2 = requests (Templates.world_after h pre) ++ [params]
  ∧ stored result.2
    = stored (Templates.world_after h pre)
      ++ match send h (length pre) params with None => [params] | Some _ => [] end.
Proof.
  intros Hdec Hlog Hparse Hnull Hundef Hvalid Hconv result params.
  subst result params.
  destruct (for_of_decodes h pre 0 Hdec) as [Hc _].
  rewrite Templates_world_after_loggable, world_after_added by done.
  rewrite Templates_sqsHandler_run, extend_start_l. cbn [Records].
  rewrite for_of_app, Templates_for_of_loggable by done.
  rewrite (for_of_added h pre 0), Hc, Nat.add_0_l. cbn [for_of].
  unfold mbind, M_bind, bind.
  rewrite (Templates_process_record_unloggable h _ record message) by done.
  cbn [fst snd]. rewrite !outcomes_extend, !outcomes_received.
  unfold put_only, received. cbn [extend outcomes console requests stored omap app].
  split; [done|]. split; [by rewrite app_nil_r|]. done.
Qed.

Lemma unconvertible_siteId_fails_after_put_witness :
  let h := example_host accepting in
  let pre := [record_of "{'siteId':'s1','body':{'temp':21}}"] in
  let record := record_of "{'siteId':{'toString':1},'body':{'temp':22}}" in
  let post := [record_of "{'siteId':'s3','body':{'temp':23}}"] in
  let message := VObject {[ "siteId" := VObject {[ "toString" := VNumber 1 ]};
                            "body" := VObject {[ "temp" := VNumber 22 ]} ]} in
  let result := Templates.sqsHandler h {| Records := pre ++ record :: post |} start in
  let params := build_params h (length pre) (field message "siteId")
                             (field message "body") in
  result.1 = Throw TypeError
  ∧ outcomes result.2 = outcomes (Templates.world_after h pre)
  ∧ requests result.2 = requests (Templates.world_after h pre) ++ [params]
  ∧ stored result.2
    = stored (Templates.world_after h pre)
      ++ match send h (length pre) params with None => [params] | Some _ => [] end.
Proof.
  apply (unconvertible_siteId_fails_after_put
           (example_host accepting)
           [record_of "{'siteId':'s1','body':{'temp':21}}"]
           (record_of "{'siteId':{'toString':1},'body':{'temp':22}}")
           [record_of "{'siteId':'s3','body':{'temp':23}}"]
           (VObject {[ "siteId" := VObject {[ "toString" := VNumber 1 ]};
                       "body" := VObject {[ "temp" := VNumber 22 ]} ]})).
  - constructor; [|constructor].
    eexists. split; [vm_compute; reflexivity|]. split; discriminate.
  - constructor; [|constructor].
    intros message Hm _. vm_compute in Hm. injection Hm as <-.
    vm_compute. reflexivity.
  - vm_compute. reflexivity.
  - discriminate.
  - discriminate.
  - vm_compute. reflexivity.
  - vm_compute. reflexivity.
Defined.

(** X2.  A body that decodes to [null] ends the invocation with a
    [TypeError] when its [siteId] is read: the messages before it have been
    processed, that message and the ones after it get no outcome and no
    write. *)
Theorem null_payload_fails_invocation h pre record post :
  Forall (decodes h) pre → Forall (loggable h) pre →
  JSON_parse h (body record) = Normal VNull →
  let result := Templates.sqsHandler h {| Records := pre ++ record :: post |} start in
  result.1 = Throw TypeError
  ∧ outcomes result.2 = outcomes (Templates.world_after h pre)
  ∧ requests result.2 = requests (Templates.world_after h pre)
  ∧ stored result.2 = stored (Templates.world_after h pre).
Proof.
  intros Hdec Hlog Hparse result. subst result.
  destruct (for_of_decodes h pre 0 Hdec) as [Hc _].
  rewrite Templates_world_after_loggable, world_after_added by done.
  rewrite Templates_sqsHandler_run, extend_start_l. cbn [Records].
  rewrite for_of_app, Templates_for_of_loggable by done.
  rewrite (for_of_added h pre 0), Hc, Nat.add_0_l. cbn [for_of].
  unfold mbind, M_bind, bind.
  rewrite Templates_process_record_loggable
    by (intros message Hm; by assert (message = VNull) as -> by congruence).
  rewrite (process_record_no_members h _ record VNull TypeError _ Hparse eq_refl).
  cbn [fst snd]. by rewrite !outcomes_extend, !outcomes_received.
Qed.

Lemma null_payload_fails_invocation_witness :
  let h := example_host accepting in
  let pre := [record_of "{'siteId':'s1','body':{'temp':21}}"] in
  let record := record_of "null" in
  let post := [record_of "{'siteId':'s3','body':{'temp':22}}"] in
  let result := Templates.sqsHandler h {| Records := pre ++ record :: post |} start in
  result.1 = Throw TypeError
  ∧ outcomes result.2 = outcomes (Templates.world_after h pre)
  ∧ requests result.2 = requests (Templates.world_after h pre)
  ∧ stored result.2 = stored (Templates.world_after h pre).
Proof.
  apply (null_payload_fails_invocation
           (example_host accepting)
           [record_of "{'siteId':'s1','body':{'temp':21}}"]
           (record_of "null")
           [record_of "{'siteId':'s3','body':{'temp':22}}"]).
  - constructor; [|constructor].
    eexists. split; [vm_compute; reflexivity|]. split; discriminate.
  - constructor; [|constructor].
    intros message Hm _. vm_compute in Hm. injection Hm as <-.
    vm_compute. reflexivity.
  - vm_compute. reflexivity.
Defined.



(** What the loop adds satisfies every property that holds of nothing, is
    kept by [extend] and holds of what each record adds. *)
Lemma for_of_invariant {A} (P : World → Prop) (f : nat → A → M unit) xs i :
  (∀ j x, framed (f j x)) →
  P start →
  (∀ d1 d2, P d1 → P d2 → P (extend d1 d2)) →
  (∀ j x, i ≤ j < i + length xs → P (f j x start).2) →
  P (for_of i xs f start).2.
Proof.
  intros Hframed Hstart Hextend. revert i.
  induction xs as [|x xs IH]; intros i Hstep; [done|].
  simpl. unfold mbind, M_bind, bind.
  pose proof (Hstep i x) as Hd. simpl in Hd.
  destruct (f i x start) as [[[]|e] d]; simpl in Hd.
  - rewrite (framed_for_of f xs Hframed (S i) d). cbn [snd].
    apply Hextend; [apply Hd; lia|].
    apply IH. intros j r Hj. apply Hstep. simpl. lia.
  - apply Hd. lia.
Qed.

Lemma Templates_requests_well_formed h batch :
  Forall (well_formed_request h (length batch))
         (requests (Templates.world_after h batch)).
Proof.
  unfold Templates.world_after. rewrite Templates_sqsHandler_start.
  cbn [snd extend requests received app].
  apply (for_of_invariant
           (λ d, Forall (well_formed_request h (length batch)) (requests d)));
    [apply framed_Templates_process_record|constructor| |].
  - intros d1 d2 H1 H2. cbn [extend requests]. by apply Forall_app.
  - intros j record Hj.
    destruct (loggable_cases h record)
      as [Hlog|(message & Hparse & Hnull & Hundef & Hvalid & Hconv)].
    + rewrite Templates_process_record_loggable by done.
      destruct (process_record_shape h j record)
        as [[_ [e ->]]|[_ (d & -> & [->|[(s & p & ->)|(s & p & e & ->)]])]];
        cbn [snd requests start skipped written refused].
      * apply Forall_nil_2.
      * apply Forall_nil_2.
      * apply Forall_cons_2; [|apply Forall_nil_2].
        apply build_params_well_formed. lia.
      * apply Forall_cons_2; [|apply Forall_nil_2].
        apply build_params_well_formed. lia.
    + rewrite (Templates_process_record_unloggable h j record message) by done.
      rewrite extend_start_l. cbn [snd requests put_only].
      apply Forall_cons_2; [|apply Forall_nil_2].
      apply build_params_well_formed. lia.
Qed.

(** X4.  Every request the handler sends, in any run, is an unconditional
    put to the table named by [TABLE_NAME], and its item has a [siteId]
    attribute and, as [timestamp], the time read while one of the messages
    of the batch was processed. *)
Theorem every_request_well_formed h batch :
  Forall (well_formed_request h (length batch))
         (requests (Templates.world_after h batch)).
Proof. apply Templates_requests_well_formed. Qed.



Lemma loggable_of_converts h record message :
  JSON_parse h (body record) = Normal message →
  converts (field message "siteId") = true →
  loggable h record.
Proof.
  intros Hparse Hconv message' Hm _.
  by assert (message' = message) as -> by congruence.
Qed.

(** X5.  For every message that reaches the write step, the item sent has
    exactly the top-level fields of [body] plus [siteId] and [timestamp]:
    nothing of the envelope of the message (its id, its receive count) is
    written. *)
Theorem item_has_body_fields_siteId_timestamp h i record message siteId payload w :
  JSON_parse h (body record) = Normal message →
  member message "siteId" = Normal siteId →
  member message "body" = Normal payload →
  truthy siteId && truthy payload = true →
  let after := Templates.process_record h i record w in
  ∃ params,
    requests after.2 = requests w ++ [params]
    ∧ dom (Item params) = {[ "siteId"; "timestamp" ]} ∪ dom (own_props payload).
Proof.
  intros Hparse Hs Hb Hvalid after. subst after.
  destruct (converts siteId) eqn:Hconv.
  - destruct (member_inv _ _ _ Hs) as (_ & _ & Heq).
    rewrite Templates_process_record_loggable
      by (eapply loggable_of_converts; [done | by rewrite <-Heq]).
    by apply (item_attribute_names h i record message siteId payload).
  - destruct (member_inv _ _ _ Hs) as (Hnull & Hundef & ->).
    destruct (member_inv _ _ _ Hb) as (_ & _ & ->).
    rewrite (Templates_process_record_unloggable h i record message) by done.
    eexists. split; [reflexivity|].
    simpl. unfold build_Item.
    rewrite dom_insert_L, dom_union_L, dom_singleton_L.
    rewrite (union_comm_L (dom (own_props (field message "body")))),
      union_assoc_L.
    by rewrite (union_comm_L {["timestamp"]}).
Qed.

Lemma item_has_body_fields_siteId_timestamp_witness :
  let h := example_host accepting in
  let record := record_of "{'siteId':'s1','body':{'temp':21,'unit':'C'}}" in
  let payload := VObject {[ "temp" := VNumber 21; "unit" := VString "C" ]} in
  let after := Templates.process_record h 0 record start in
  ∃ params,
    requests after.2 = requests start ++ [params]
    ∧ dom (Item params) = {[ "siteId"; "timestamp" ]} ∪ dom (own_props payload).
Proof.
  apply (item_has_body_fields_siteId_timestamp
           (example_host accepting) 0
           (record_of "{'siteId':'s1','body':{'temp':21,'unit':'C'}}")
           (VObject {[ "siteId" := VString "s1";
                       "body" := VObject {[ "temp" := VNumber 21;
                                            "unit" := VString "C" ]} ]})
           (VString "s1")
           (VObject {[ "temp" := VNumber 21; "unit" := VString "C" ]}) start).
  - vm_compute. reflexivity.
  - vm_compute. reflexivity.
  - vm_compute. reflexivity.
  - vm_compute. reflexivity.
Defined.



Lemma Templates_for_of_shift n h batch i w :
  for_of i batch (Templates.process_record (shift n h)) w
  = for_of (n + i) batch (Templates.process_record h) w.
Proof.
  revert i w. induction batch as [|record batch IH]; intros i w; [done|].
  simpl. unfold mbind, M_bind, bind.
  change (Templates.process_record (shift n h) i record w)
    with (Templates.process_record h (n + i) record w).
  destruct (Templates.process_record h (n + i) record w) as [[[]|e] w']; [|done].
  rewrite IH. by rewrite Nat.add_succ_r.
Qed.

(** X7.  A batch whose first part is processed to its end is processed as
    its two parts would be in two invocations, the second seeing the clock
    and the sink of the later positions: the result is that of the second
    part, and outcomes, requests and stored records are those of the first
    part followed by those of the second. *)
Theorem batch_can_be_split h xs ys :
  Forall (decodes h) xs → Forall (loggable h) xs →
  let whole := Templates.sqsHandler h {| Records := xs ++ ys |} start in
  let first := Templates.sqsHandler h {| Records := xs |} start in
  let second :=
    Templates.sqsHandler (shift (length xs) h) {| Records := ys |} start in
  first.1 = Normal tt
  ∧ whole.1 = second.1
  ∧ outcomes whole.2 = outcomes first.2 ++ outcomes second.2
  ∧ requests whole.2 = requests first.2 ++ requests second.2
  ∧ stored whole.2 = stored first.2 ++ stored second.2.
Proof.
  intros Hdec Hlog whole first second. subst whole first second.
  destruct (for_of_decodes h xs 0 Hdec) as [Hc _].
  rewrite (Templates_sqsHandler_loggable h xs) by done.
  rewrite sqsHandler_added, Hc.
  rewrite Templates_sqsHandler_run, extend_start_l. cbn [Records].
  rewrite for_of_app, Templates_for_of_loggable by done.
  rewrite (for_of_added h xs 0), Hc, Nat.add_0_l.
  rewrite (framed_Templates_run h ys (length xs)).
  rewrite Templates_sqsHandler_start, Templates_for_of_shift, Nat.add_0_r.
  cbn [fst snd]. rewrite !outcomes_extend, !outcomes_received.
  unfold received. cbn [extend requests stored app].
  split; [done|]. split; [done|]. split; [done|].
  split; by rewrite ?app_assoc.
Qed.

Lemma batch_can_be_split_witness :
  let h := example_host (rejecting_at 1) in
  let xs := [record_of "{'siteId':'s1','body':{'temp':21}}"] in
  let ys := [record_of "{'siteId':'s2','body':{'temp':22}}";
             record_of "{'siteId':'s3'"] in
  let whole := Templates.sqsHandler h {| Records := xs ++ ys |} start in
  let first := Templates.sqsHandler h {| Records := xs |} start in
  let second :=
    Templates.sqsHandler (shift (length xs) h) {| Records := ys |} start in
  first.1 = Normal tt
  ∧ whole.1 = second.1
  ∧ outcomes whole.2 = outcomes first.2 ++ outcomes second.2
  ∧ requests whole.2 = requests first.2 ++ requests second.2
  ∧ stored whole.2 = stored first.2 ++ stored second.2.
Proof.
  apply (batch_can_be_split
           (example_host (rejecting_at 1))
           [record_of "{'siteId':'s1','body':{'temp':21}}"]
           [record_of "{'siteId':'s2','body':{'temp':22}}";
            record_of "{'siteId':'s3'"]).
  - constructor; [|constructor].
    eexists. split; [vm_compute; reflexivity|]. split; discriminate.
  - constructor; [|constructor].
    intros message Hm _. vm_compute in Hm. injection Hm as <-.
    vm_compute. reflexivity.
Defined.

(** X8.  A body that decodes to a number, a boolean, a string or an array
    has no [siteId]: the message is SkippedInvalid, nothing is sent and the
    handler goes on. *)
Theorem non_object_payload_is_skipped h i record message w :
  JSON_parse h (body record) = Normal message →
  message ≠ VNull → message ≠ VUndefined →
  is_object message = false →
  let after := Templates.process_record h i record w in
  after.1 = Normal tt
  ∧ outcomes after.2 = outcomes w ++ [SkippedInvalid]
  ∧ requests after.2 = requests w
  ∧ stored after.2 = stored w.
Proof.
  intros Hparse Hnull Hundef Hno after. subst after.
  rewrite Templates_process_record_loggable.
  - by apply (non_object_payload_skipped h i record message).
  - intros message' Hm Hvalid.
    assert (message' = message) as -> by congruence.
    rewrite non_object_has_no_field in Hvalid; [done| |done].
    intros d. unfold pretty_N_char. by repeat case_match.
Qed.

Lemma non_object_payload_is_skipped_witness :
  let h := example_host accepting in
  let record := record_of "['siteId','body']" in
  let after := Templates.process_record h 0 record start in
  after.1 = Normal tt
  ∧ outcomes after.2 = outcomes start ++ [SkippedInvalid]
  ∧ requests after.2 = requests start
  ∧ stored after.2 = stored start.
Proof.
  apply (non_object_payload_is_skipped
           (example_host accepting) 0 (record_of "['siteId','body']")
           (VArray [VString "siteId"; VString "body"]) start).
  - vm_compute. reflexivity.
  - discriminate.
  - discriminate.
  - reflexivity.
Defined.
